(** * wampy: a WAMP client over WebSocket

    A shallow embedding of the session lifecycle ([wampy/session.py]), the
    default inbound message handler ([wampy/messages/handlers/default.py]),
    the caller proxies ([wampy/roles/caller.py]) and the WebSocket
    connection ([wampy/transports/websocket/connection.py]), with the
    properties the specification states about them. *)

From Stdlib Require Import ZArith List String Ascii Bool Lia.
From stdpp Require Import gmap strings pretty.

Set Warnings "-register-all".

Local Open Scope string_scope.
Local Open Scope list_scope.
Local Open Scope stdpp_scope.
Local Open Scope Z_scope.

(** * Python values, exceptions and effects *)

Module Py.

(** The JSON-shaped values that travel in WAMP messages.  A dict keeps its
    items in insertion order. *)
Inductive pyval : Type :=
| PNone
| PInt (z : Z)
| PStr (s : string)
| PList (l : list pyval)
| PDict (d : list (string * pyval)).

(** Truth value of a Python object ([if not x], [x or y]). *)
Definition truthy (v : pyval) : bool :=
  match v with
  | PNone => false
  | PInt z => negb (z =? 0)
  | PStr s => negb (String.eqb s "")
  | PList l => match l with [] => false | _ => true end
  | PDict d => match d with [] => false | _ => true end
  end.

(** [a or b]. *)
Definition py_or (a b : pyval) : pyval := if truthy a then a else b.

(** [v == n] for an integer constant [n]. *)
Definition eq_int (v : pyval) (n : Z) : bool :=
  match v with
  | PInt z => z =? n
  | _ => false
  end.

(** [v in [n1, n2, ...]] for a list of integer constants. *)
Definition in_ints (v : pyval) (ns : list Z) : bool :=
  existsb (eq_int v) ns.

(** Modelled from the spec: the exception classes the modelled code raises
    or catches.  [wampy/errors.py] is not among the sources; like the error
    kinds of section 7, its classes are taken to be separate subclasses of
    [Exception], each matched by an [except] clause that names it and by
    [except Exception]. *)
Inductive exn_class : Type :=
| WampError
| WampProtocolError
| WampyError
| ConnectionError
| IncompleteFrameError
| BaseError          (* [Exception] raised directly with a message *)
| AttributeError
| IndexError
| KeyError
| TypeError
| ValueError
| AssertionError
| SocketError        (* [socket.error] *)
| SocketTimeout      (* [socket.timeout] *)
| EventletTimeout    (* [eventlet.Timeout], a [BaseException] *)
| GreenletExit       (* [greenlet.GreenletExit], a [BaseException] *)
| SystemExit
| KeyboardInterrupt.

#[global] Instance exn_class_eq_dec : EqDecision exn_class.
Proof. solve_decision. Defined.

(** A raised exception: its class, the message template it was built with
    and the values formatted into the template. *)
Record exn : Type := Exn {
  exn_cls : exn_class;
  exn_msg : string;
  exn_args : list pyval
}.

(** The double quote that message templates hold. *)
Definition dquote : string := String (ascii_of_nat 34) EmptyString.

(** Classes deriving from [Exception] (what [except Exception] catches). *)
Definition is_Exception (c : exn_class) : bool :=
  match c with
  | EventletTimeout | GreenletExit | SystemExit | KeyboardInterrupt => false
  | _ => true
  end.

(** [except (C1, C2, ...)]. *)
Definition caught_by (cs : list exn_class) (e : exn) : bool :=
  bool_decide (exn_cls e ∈ cs).

(** The outcome of a call: a returned value or a raised exception. *)
Inductive res (A : Type) : Type :=
| Ok (a : A)
| Raise (e : exn).
Arguments Ok {A} a.
Arguments Raise {A} e.

Definition is_ok {A} (r : res A) : bool :=
  match r with Ok _ => true | Raise _ => false end.

Definition raised_class {A} (r : res A) : option exn_class :=
  match r with Ok _ => None | Raise e => Some (exn_cls e) end.

(** Statements run in a state: mutations made before a [raise] persist. *)
Definition M (S A : Type) : Type := S -> res A * S.

Definition ret {S A} (a : A) : M S A := fun s => (Ok a, s).

Definition raise {S A} (c : exn_class) (msg : string) (args : list pyval)
  : M S A :=
  fun s => (Raise (Exn c msg args), s).

Definition reraise {S A} (e : exn) : M S A := fun s => (Raise e, s).

Definition bind {S A B} (c : M S A) (k : A -> M S B) : M S B :=
  fun s =>
    match c s with
    | (Ok a, s') => k a s'
    | (Raise e, s') => (Raise e, s')
    end.

(** [try: c  except <sel>: h]. *)
Definition try_except {S A} (c : M S A) (sel : exn -> bool)
  (h : exn -> M S A) : M S A :=
  fun s =>
    match c s with
    | (Ok a, s') => (Ok a, s')
    | (Raise e, s') => if sel e then h e s' else (Raise e, s')
    end.

Definition gets {S A} (f : S -> A) : M S A := fun s => (Ok (f s), s).
Definition modify {S} (f : S -> S) : M S unit := fun s => (Ok tt, f s).
Definition lift_res {S A} (r : res A) : M S A := fun s => (r, s).

End Py.
Import Py.

Declare Scope py_scope.
Delimit Scope py_scope with py.
Notation "x <- c ;; k" := (bind c (fun x => k))
  (at level 100, c at next level, right associativity) : py_scope.
Notation "c ;;; k" := (bind c (fun _ => k))
  (at level 100, right associativity) : py_scope.
Local Open Scope py_scope.

(** * Python string methods used by the handshake *)

Module Str.

Definition chars (s : string) : list ascii := list_ascii_of_string s.
Definition of_chars (l : list ascii) : string := string_of_list_ascii l.


(** Whitespace as [unicode.strip()] understands it, among the ASCII
    characters: tab to carriage return, the four separators 0x1c to 0x1f,
    and the space. *)
Definition is_space (c : ascii) : bool :=
  let n := nat_of_ascii c in
  ((9 <=? n) && (n <=? 13) || (28 <=? n) && (n <=? 31) || (n =? 32))%nat.

Fixpoint lstrip_by (p : ascii -> bool) (l : list ascii) : list ascii :=
  match l with
  | [] => []
  | c :: l' => if p c then lstrip_by p l' else l
  end.

Definition rstrip_by (p : ascii -> bool) (l : list ascii) : list ascii :=
  rev (lstrip_by p (rev l)).

(** [s.strip()]. *)
Definition strip (s : string) : string :=
  of_chars (rstrip_by is_space (lstrip_by is_space (chars s))).

(** [s.lstrip(c)] for a one-character argument. *)
Definition lstrip_char (c : ascii) (s : string) : string :=
  of_chars (lstrip_by (Ascii.eqb c) (chars s)).

Definition lower_char (c : ascii) : ascii :=
  let n := nat_of_ascii c in
  if ((65 <=? n) && (n <=? 90))%nat then ascii_of_nat (n + 32) else c.

(** [s.lower()], on ASCII text. *)
Definition lower (s : string) : string := of_chars (map lower_char (chars s)).

(** [s.split(sep, maxsplit)] for a one-character separator: at most
    [maxsplit] cuts, at the leftmost separators. *)
Fixpoint split_chars (sep : ascii) (maxsplit : nat) (cur : list ascii)
  (l : list ascii) : list string :=
  match l with
  | [] => [of_chars (rev cur)]
  | c :: l' =>
      match maxsplit with
      | O => [of_chars (rev cur ++ l)]
      | S n =>
          if Ascii.eqb c sep
          then of_chars (rev cur) :: split_chars sep n [] l'
          else split_chars sep maxsplit (c :: cur) l'
      end
  end.

Definition split (sep : ascii) (maxsplit : nat) (s : string) : list string :=
  split_chars sep maxsplit [] (chars s).

Definition digit_of (c : ascii) : option Z :=
  let n := nat_of_ascii c in
  if ((48 <=? n) && (n <=? 57))%nat then Some (Z.of_nat n - 48) else None.

Fixpoint digits_value (acc : Z) (l : list ascii) : option Z :=
  match l with
  | [] => Some acc
  | c :: l' =>
      match digit_of c with
      | Some d => digits_value (10 * acc + d) l'
      | None => None
      end
  end.

(** [int(s)]: surrounding whitespace is ignored, one sign is allowed, and at
    least one decimal digit is required; [None] stands for [ValueError]. *)
Definition int (s : string) : option Z :=
  match chars (strip s) with
  | [] => None
  | c :: l =>
      if Ascii.eqb c "-" then
        match l with [] => None | _ => Z.opp <$> digits_value 0 l end
      else if Ascii.eqb c "+" then
        match l with [] => None | _ => digits_value 0 l end
      else digits_value 0 (c :: l)
  end.

(** ['sep'.join(parts)]. *)
Definition join (sep : string) (parts : list string) : string :=
  String.concat sep parts.

End Str.

(** * WAMP messages ([wampy/messages]) *)

Module Messages.

(** A message on the wire: a JSON array [[code, ...fields]]. *)
Definition message : Type := list pyval.

(** [MESSAGE_TYPE_MAP] of [wampy/messages/__init__.py]. *)
Definition MESSAGE_TYPE_MAP : gmap Z string :=
  list_to_map
    [ (1, "HELLO"); (2, "WELCOME"); (3, "ABORT"); (4, "CHALLENGE");
      (5, "AUTHENTICATE"); (6, "GOODBYE"); (8, "ERROR"); (16, "PUBLISH");
      (32, "SUBSCRIBE"); (33, "SUBSCRIBED"); (36, "EVENT"); (48, "CALL");
      (50, "RESULT"); (64, "REGISTER"); (65, "REGISTERED");
      (66, "UNREGISTER"); (67, "UNREGISTERED"); (68, "INVOCATION");
      (70, "YIELD") ].

(** Modelled from the spec: the integer constants of class [Message]
    ([wampy/messages/message.py], not among the sources), taken from the
    message table of section 3, which [MESSAGE_TYPE_MAP] repeats. *)
Module Message.
Definition HELLO : Z := 1.
Definition WELCOME : Z := 2.
Definition ABORT : Z := 3.
Definition CHALLENGE : Z := 4.
Definition AUTHENTICATE : Z := 5.
Definition GOODBYE : Z := 6.
Definition ERROR : Z := 8.
Definition CALL : Z := 48.
Definition RESULT : Z := 50.
End Message.

(** The message classes the modelled code names. *)
Inductive message_class : Type :=
| Hello | Welcome | Challenge | Authenticate | Goodbye | Error | Call
| Result | Subscribed | Event | Registered | Invocation | Yield.

#[global] Instance message_class_eq_dec : EqDecision message_class.
Proof. solve_decision. Defined.

(** Modelled from the spec: the [WAMP_CODE] attribute of each class.
    [Challenge] (4) and [Authenticate] (5) are read from their sources; the
    other class files are not among the sources and their codes are those of
    the message table of section 3. *)
Definition WAMP_CODE (c : message_class) : Z :=
  match c with
  | Hello => 1 | Welcome => 2 | Challenge => 4 | Authenticate => 5
  | Goodbye => 6 | Error => 8 | Call => 48 | Result => 50
  | Subscribed => 33 | Event => 36 | Registered => 65 | Invocation => 68
  | Yield => 70
  end.

(** A message object: its class and its [message] attribute, the list that
    [serialize] puts on the wire. *)
Record MessageObj : Type := {
  obj_class : message_class;
  obj_message : list pyval
}.

(** [x[i]] on a Python value. *)
Definition subscript (v : pyval) (i : nat) : res pyval :=
  match v with
  | PList l =>
      match nth_error l i with
      | Some x => Ok x
      | None => Raise (Exn IndexError "list index out of range" [])
      end
  | PStr s =>
      match String.get i s with
      | Some c => Ok (PStr (String c EmptyString))
      | None => Raise (Exn IndexError "string index out of range" [])
      end
  | PDict _ => Raise (Exn KeyError "" [PInt (Z.of_nat i)])
  | PNone | PInt _ => Raise (Exn TypeError "object is not subscriptable" [])
  end.

(** [m[i]] on a message. *)
Definition item (m : message) (i : nat) : res pyval := subscript (PList m) i.

(** Looking a Python value up as the key of a dict with integer keys:
    lists and dicts are unhashable, other non-integers are absent. *)
Definition find_key {V} (d : gmap Z V) (k : pyval) : res (option V) :=
  match k with
  | PInt z => Ok (d !! z)
  | PNone | PStr _ => Ok None
  | PList _ | PDict _ => Raise (Exn TypeError "unhashable type" [k])
  end.

(** [d[k]]. *)
Definition getitem {V} (d : gmap Z V) (k : pyval) : res V :=
  match find_key d k with
  | Ok (Some v) => Ok v
  | Ok None => Raise (Exn KeyError "" [k])
  | Raise e => Raise e
  end.

(** [Challenge.__init__(self, wamp_code, authmethod, details_dict)], called
    as [Challenge( *message)]: the message must have exactly three
    elements, the first of them the code 4. *)
Definition Challenge_init (args : list pyval) : res MessageObj :=
  match args with
  | [wamp_code; authmethod; details_dict] =>
      if eq_int wamp_code (WAMP_CODE Challenge)
      then Ok {| obj_class := Challenge;
                 obj_message :=
                   [PInt (WAMP_CODE Challenge); authmethod; details_dict] |}
      else Raise (Exn AssertionError "" [])
  | _ => Raise (Exn TypeError "__init__() takes exactly 4 arguments" [])
  end.

(** [Authenticate.__init__(self, signature, details_dict=None)]. *)
Definition Authenticate_init (signature : pyval) (details_dict : pyval)
  : MessageObj :=
  let details := py_or details_dict (PDict []) in
  {| obj_class := Authenticate;
     obj_message := [PInt (WAMP_CODE Authenticate); signature; details] |}.

(** Modelled from the spec: [Hello(realm, roles)]
    ([wampy/messages/hello.py], not among the sources), the message
    [HELLO(realm, {roles: ...})] of section 4.D. *)
Definition Hello_init (realm : string) (roles : pyval) : MessageObj :=
  {| obj_class := Hello;
     obj_message :=
       [PInt (WAMP_CODE Hello); PStr realm; PDict [("roles", roles)]] |}.

(** Modelled from the spec: [Goodbye(wamp_code=6)]
    ([wampy/messages/goodbye.py], not among the sources), the message
    [GOODBYE({}, "wamp.close.normal")] of section 4.D. *)
Definition Goodbye_init (wamp_code : Z) : MessageObj :=
  {| obj_class := Goodbye;
     obj_message := [PInt wamp_code; PDict []; PStr "wamp.close.normal"] |}.

(** Modelled from the spec: [Call(procedure, args, kwargs)]
    ([wampy/messages/call.py], not among the sources), the message
    [CALL(req_id, {}, procedure, args, kwargs)] of section 4.F; the request
    id is allocated by the caller of the constructor. *)
Definition Call_init (req_id : Z) (procedure : string) (args : list pyval)
  (kwargs : list (string * pyval)) : MessageObj :=
  {| obj_class := Call;
     obj_message :=
       [PInt (WAMP_CODE Call); PInt req_id; PDict []; PStr procedure;
        PList args; PDict kwargs] |}.

End Messages.
Import Messages.

(** * The objects of a session *)

(** A connected socket: what has been handed to [send]/[sendall], oldest
    first, and whether [close] has been called on it. *)
Record Socket : Type := {
  sent : list string;
  closed : bool
}.

(** [WebSocket] ([connection.py]): the attributes set by [__init__],
    [_connect] and [_upgrade]. *)
Record WebSocket : Type := {
  host : string;
  port : Z;
  websocket_location : string;
  key : string;
  socket : option Socket;
  status : option Z;
  headers : gmap string pyval
}.

(** The green thread that runs [connection_handler]: suspended in
    [socket.recv] with the bytes of the frame read so far, or finished. *)
Inductive GreenThread : Type :=
| Suspended (received_bytes : string)
| Stopped                         (* the loop was left by [break] *)
| Crashed (e : exn).              (* an exception escaped the loop *)

(** [MessageHandler] ([default.py]). *)
Record MessageHandler : Type := {
  messages_to_handle : list message_class;
  messages : gmap Z message_class
}.

(** The one transport of a session; [_connection] is either [None] or an
    alias of it. *)
Inductive TransportRef : Type := TheTransport.

(** [Session] ([session.py]). *)
Record Session : Type := {
  realm : string;
  roles : pyval;                          (* [client.roles] *)
  onchallenge : option (MessageObj -> res pyval);
  subscription_map : gmap string pyval;
  registration_map : gmap string pyval;
  session_id : pyval;
  _connection : option TransportRef;
  _managed_thread : option GreenThread;
  _message_queue : list message;          (* head = next to [get] *)
  message_handler : MessageHandler;
  session : pyval                         (* set by [_disconnet] *)
}.

(** The objects the program can reach: the session, its transport and the
    client that owns them. *)
Record Heap (ClientState : Type) : Type := {
  sess : Session;
  transport : WebSocket;
  client : ClientState
}.
Arguments sess {ClientState} h.
Arguments transport {ClientState} h.
Arguments client {ClientState} h.

(** The parts of the library that the modelled code calls and that are not
    among the sources. *)
Class Externals : Type := {
  (** the state of the [Client] object *)
  ClientState : Type;
  (** [Message.serialize]: the JSON text of a message object *)
  serialize : MessageObj -> string;
  (** [ClientFrame(text).payload]: the bytes of the masked text frame *)
  ClientFrame : string -> string;
  (** [ServerFrame(received_bytes)]: a parsed frame, or
      [IncompleteFrameError] when more bytes are needed *)
  Frame : Type;
  ServerFrame : string -> res Frame;
  payload : Frame -> message;
  frame_truthy : Frame -> bool;
  (** the constructors of the message classes other than [Challenge] *)
  init_message : message_class -> list pyval -> res MessageObj;
  (** [message_obj.process(message=..., client=...)] *)
  process : MessageObj -> message -> Heap ClientState
            -> res unit * Heap ClientState;
  (** [Client.send_message_and_wait_for_response] *)
  send_message_and_wait_for_response :
    MessageObj -> ClientState -> res message * ClientState
}.

(** * The WebSocket connection ([wampy/transports/websocket/connection.py]) *)

Module WS.

Definition LF : ascii := ascii_of_nat 10.
Definition CR : ascii := ascii_of_nat 13.
Definition CRLF : string := String CR (String LF EmptyString).
Definition NL : string := String LF EmptyString.

(** ** The key: [encodestring(uuid.uuid4().bytes).decode('utf-8').strip()] *)

Definition b64_alphabet : string :=
  "ABCDEFGHIJKLMNOPQRSTUVWXYZabcdefghijklmnopqrstuvwxyz0123456789+/".

Definition b64_pad : ascii := "="%char.

Definition b64_char (n : nat) : ascii :=
  match String.get n b64_alphabet with
  | Some c => c
  | None => b64_pad
  end.

(** Three bytes give four characters; a last group of one or two bytes is
    padded with [=]. *)
Fixpoint b64_groups (bs : list nat) : list ascii :=
  match bs with
  | [] => []
  | a :: bs1 =>
      match bs1 with
      | [] =>
          [b64_char (a / 4); b64_char ((a mod 4) * 16); b64_pad; b64_pad]
      | b :: bs2 =>
          match bs2 with
          | [] =>
              [b64_char (a / 4); b64_char ((a mod 4) * 16 + b / 16);
               b64_char ((b mod 16) * 4); b64_pad]
          | c :: rest =>
              b64_char (a / 4)
              :: b64_char ((a mod 4) * 16 + b / 16)
              :: b64_char ((b mod 16) * 4 + c / 64)
              :: b64_char (c mod 64)
              :: b64_groups rest
          end
      end
  end%nat.

(** [base64.b64encode]. *)
Definition b64encode (s : string) : string :=
  Str.of_chars (b64_groups (map nat_of_ascii (Str.chars s))).

(** [binascii.b2a_base64]: the encoding of one chunk and a newline. *)
Definition b2a_base64 (chunk : list ascii) : string :=
  Str.of_chars (b64_groups (map nat_of_ascii chunk)) +:+ NL.

Definition MAXBINSIZE : nat := 57.

Fixpoint encode_chunks (fuel : nat) (l : list ascii) : string :=
  match fuel, l with
  | _, [] => ""
  | O, _ => ""
  | S n, _ =>
      b2a_base64 (take MAXBINSIZE l) +:+ encode_chunks n (drop MAXBINSIZE l)
  end.

(** [base64.encodestring]: chunks of 57 bytes, each encoded on a line of its
    own. *)
Definition encodestring (s : string) : string :=
  encode_chunks (String.length s) (Str.chars s).

(** Modelled from the spec: [WEBSOCKET_VERSION] and [WEBSOCKET_SUBPROTOCOLS]
    of [wampy/constants.py] (not among the sources): "WebSocket subprotocol
    advertised: wamp.2.json. WebSocket version: 13" (section 6). *)
Definition WEBSOCKET_VERSION : Z := 13.
Definition WEBSOCKET_SUBPROTOCOLS : string := "wamp.2.json".

(** [WebSocket.__init__(host, port, websocket_location)]; [uuid_bytes] is
    the value of [uuid.uuid4().bytes] drawn by the constructor. *)
Definition WebSocket_init (host : string) (port : Z)
  (websocket_location : string) (uuid_bytes : string) : WebSocket :=
  {| host := host;
     port := port;
     websocket_location := Str.lstrip_char "/" websocket_location;
     key := Str.strip (encodestring uuid_bytes);
     socket := None;
     status := None;
     headers := ∅ |}.

(** [_connect]: [tcp] is the outcome of [socket.connect((host, port))]. *)
Definition _connect (tcp : res unit) (ws : WebSocket) : res unit * WebSocket :=
  match tcp with
  | Raise e => (Raise e, ws)
  | Ok _ =>
      (Ok tt,
       {| host := host ws; port := port ws;
          websocket_location := websocket_location ws; key := key ws;
          socket := Some {| sent := []; closed := false |};
          status := status ws; headers := headers ws |})
  end.

(** [_get_handshake_headers]. *)
Definition _get_handshake_headers (ws : WebSocket) : list string :=
  [ "GET /" +:+ websocket_location ws +:+ " HTTP/1.1";
    "Host: " +:+ host ws;
    "Upgrade: websocket";
    "Connection: Upgrade";
    "Sec-WebSocket-Key: " +:+ key ws;
    "Origin: wss://" +:+ host ws;
    "Sec-WebSocket-Version: " +:+ pretty WEBSOCKET_VERSION;
    "Sec-WebSocket-Protocol: " +:+ WEBSOCKET_SUBPROTOCOLS ].

(** The text [_upgrade] writes to the socket:
    ['\r\n'.join(handshake_headers) + "\r\n\r\n"]. *)
Definition handshake_request (ws : WebSocket) : string :=
  Str.join CRLF (_get_handshake_headers ws) +:+ CRLF +:+ CRLF.

(** [_recv_handshake_response_by_line]: bytes are read one at a time up to
    and including the first newline.  [input] is what [socket.recv] delivers
    before it stops delivering; a read past its end raises [recv_fault], if
    that is an exception, and otherwise (the peer has closed the
    connection) returns the empty string, which ends the line. *)
Fixpoint _recv_handshake_response_by_line (recv_fault : option exn)
  (received_bytes : string) (input : string) : res string * string :=
  match input with
  | EmptyString =>
      match recv_fault with
      | Some e => (Raise e, EmptyString)
      | None => (Ok received_bytes, EmptyString)
      end
  | String b input' =>
      let received_bytes := received_bytes +:+ String b EmptyString in
      if Ascii.eqb b LF then (Ok received_bytes, input')
      else _recv_handshake_response_by_line recv_fault received_bytes input'
  end.

(** A call that may never return. *)
Inductive outcome (A : Type) : Type :=
| Returns (r : res A)
| Hangs.
Arguments Returns {A} r.
Arguments Hangs {A}.

(** [if not status]: [None] and [0] are false. *)
Definition status_unset (status : option Z) : bool :=
  match status with
  | None => true
  | Some z => z =? 0
  end.

(** The [while True] loop of [_read_handshake_response].  Once the peer has
    closed the connection every further line is empty and the loop spins for
    ever; [fuel] bounds the number of lines read otherwise. *)
Fixpoint read_handshake_loop (fuel : nat) (recv_fault : option exn)
  (status : option Z) (headers : gmap string pyval) (input : string)
  : outcome (option Z * gmap string pyval) * string :=
  match fuel with
  | O => (Hangs, input)
  | S fuel' =>
      match _recv_handshake_response_by_line recv_fault "" input with
      | (Raise e, rest) => (Returns (Raise e), rest)
      | (Ok line, rest) =>
      if String.eqb line CRLF || String.eqb line NL then
        (Returns (Ok (status, headers)), rest)
      else
        let line := Str.strip line in
        if String.eqb line "" then
          match input with
          | EmptyString => (Hangs, rest)
          | _ => read_handshake_loop fuel' recv_fault status headers rest
          end
        else if status_unset status then
          let status_info := Str.split " " 2 line in
          match nth_error status_info 1 with
          | None => (Returns (Raise (Exn IndexError "list index out of range" [])), rest)
          | Some field =>
              match Str.int field with
              | None =>
                  (Returns (Raise (Exn ValueError "invalid literal for int()"
                                     [PStr field])), rest)
              | Some st =>
                  let headers :=
                    <["status" := PInt st]>
                      (<["status_info" := PList (map PStr status_info)]>
                         headers) in
                  read_handshake_loop fuel' recv_fault (Some st) headers rest
              end
          end
        else
          let kv := Str.split ":" 1 line in
          match kv with
          | [k; value] =>
              let headers :=
                <[Str.lower k := PStr (Str.lower (Str.strip value))]> headers in
              read_handshake_loop fuel' recv_fault status headers rest
          | _ =>
              (Returns (Raise (Exn BaseError
                                 ("Invalid header: " +:+ dquote +:+ "{}"
                                  +:+ dquote) [PStr line])),
               rest)
          end
      end
  end.

(** [_read_handshake_response]: each line read consumes at least one byte of
    the input, so one unit of fuel per byte and one more is enough. *)
Definition _read_handshake_response (recv_fault : option exn) (input : string)
  : outcome (option Z * gmap string pyval) * string :=
  read_handshake_loop (S (String.length input)) recv_fault None ∅ input.

Definition set_socket (sk : option Socket) (ws : WebSocket) : WebSocket :=
  {| host := host ws; port := port ws;
     websocket_location := websocket_location ws; key := key ws;
     socket := sk; status := status ws; headers := headers ws |}.

Definition set_reply (st : option Z) (hd : gmap string pyval)
  (ws : WebSocket) : WebSocket :=
  {| host := host ws; port := port ws;
     websocket_location := websocket_location ws; key := key ws;
     socket := socket ws; status := st; headers := hd |}.

(** [socket.send(data)] / [socket.sendall(data)] on the object's socket. *)
Definition socket_send (data : string) (ws : WebSocket)
  : res unit * WebSocket :=
  match socket ws with
  | None =>
      (Raise (Exn AttributeError
                "'NoneType' object has no attribute 'send'" []), ws)
  | Some sk =>
      (Ok tt,
       set_socket (Some {| sent := sent sk ++ [data]; closed := closed sk |})
         ws)
  end.

(** [_upgrade]: send the handshake, then read the reply and keep its status
    and headers.  [send_fault] is the exception [socket.send] raises, if it
    does; [recv_fault] and [input] are what the reads give. *)
Definition _upgrade (send_fault recv_fault : option exn) (ws : WebSocket)
  (input : string) : outcome unit * WebSocket * string :=
  let handshake := handshake_request ws in
  match socket ws, send_fault with
  | Some _, Some e => (Returns (Raise e), ws, input)
  | _, _ =>
  match socket_send handshake ws with
  | (Raise e, ws) => (Returns (Raise e), ws, input)
  | (Ok _, ws) =>
      match _read_handshake_response recv_fault input with
      | (Returns (Ok (st, hd)), rest) =>
          (Returns (Ok tt), set_reply st hd ws, rest)
      | (Returns (Raise e), rest) => (Returns (Raise e), ws, rest)
      | (Hangs, rest) => (Hangs, ws, rest)
      end
  end
  end.

(** [connect]: [_connect] then [_upgrade]. *)
Definition connect (tcp : res unit) (send_fault recv_fault : option exn)
  (ws : WebSocket) (input : string) : outcome unit * WebSocket * string :=
  match _connect tcp ws with
  | (Raise e, ws) => (Returns (Raise e), ws, input)
  | (Ok _, ws) => _upgrade send_fault recv_fault ws input
  end.

(** ** Frames *)

(** What one [socket.recv(bufsize)] gives: some bytes (none when the peer
    has closed the connection) or an exception. *)
Inductive recv_result : Type :=
| RecvData (bytes : string)
| RecvRaises (e : exn).

(** How a call of [read_websocket_frame] ends on the reads available to it:
    with a frame, with an exception, or still suspended in [recv] with the
    bytes received so far. *)
Inductive read_outcome (Frame : Type) : Type :=
| FrameRead (frame : Frame)
| ReadRaised (e : exn)
| ReadBlocked (received_bytes : string).
Arguments FrameRead {Frame} frame.
Arguments ReadRaised {Frame} e.
Arguments ReadBlocked {Frame} received_bytes.

Section Frames.
Context `{Externals}.

(** The [while True] loop of [read_websocket_frame], entered with the bytes
    received so far; the reads left over are returned with the outcome. *)
Fixpoint read_websocket_frame_from (received_bytes : string)
  (reads : list recv_result) : read_outcome Frame * list recv_result :=
  match reads with
  | [] => (ReadBlocked received_bytes, [])
  | RecvRaises e :: reads' =>
      let quoted := dquote +:+ "{}" +:+ dquote in
      let text := [PStr (exn_msg e)] in
      if bool_decide (exn_cls e = GreenletExit) then
        (ReadRaised (Exn ConnectionError ("Connection closed: " +:+ quoted) text),
         reads')
      else if bool_decide (exn_cls e = SocketTimeout) then
        (ReadRaised (Exn ConnectionError ("timeout: " +:+ quoted) text), reads')
      else if is_Exception (exn_cls e) then
        (ReadRaised (Exn ConnectionError ("error: " +:+ quoted) text), reads')
      else (ReadRaised e, reads')
  | RecvData bytes :: reads' =>
      if String.eqb bytes "" then
        (* [break] with [frame is None] *)
        (ReadRaised (Exn WampProtocolError "No frame returned" []), reads')
      else
        let received_bytes := received_bytes +:+ bytes in
        match ServerFrame received_bytes with
        | Ok frame => (FrameRead frame, reads')
        | Raise e =>
            if bool_decide (exn_cls e = IncompleteFrameError)
            then read_websocket_frame_from received_bytes reads'
            else (ReadRaised e, reads')
        end
  end.

(** [read_websocket_frame]. *)
Definition read_websocket_frame (reads : list recv_result)
  : read_outcome Frame * list recv_result :=
  read_websocket_frame_from "" reads.

(** [send_websocket_frame(message)]; [fault] is the exception [sendall]
    raises, if it does. *)
Definition send_websocket_frame (fault : option exn) (message : string)
  (ws : WebSocket) : res unit * WebSocket :=
  let frame := ClientFrame message in
  match socket ws, fault with
  | None, _ =>
      (Raise (Exn AttributeError
                "'NoneType' object has no attribute 'sendall'" []), ws)
  | Some _, Some e => (Raise e, ws)
  | Some _, None => socket_send frame ws
  end.

End Frames.

End WS.
Import WS.

(** * The default message handler ([wampy/messages/handlers/default.py]) *)

Module Handler.

(** The classes handled when [messages_to_handle] is not given. *)
Definition default_messages_to_handle : list message_class :=
  [Welcome; Challenge; Goodbye; Registered; Invocation; Yield; Result;
   Error; Subscribed; Event].

(** [_configure_messages]: [messages[message.WAMP_CODE] = message] for each
    class in turn. *)
Definition _configure_messages (to_handle : list message_class)
  : gmap Z message_class :=
  foldl (fun messages c => <[WAMP_CODE c := c]> messages) ∅ to_handle.

(** [MessageHandler.__init__(client, session, message_queue,
    messages_to_handle=None)]; the queue is the session's. *)
Definition MessageHandler_init (to_handle : option (list message_class))
  : MessageHandler :=
  let classes := default default_messages_to_handle to_handle in
  {| messages_to_handle := classes;
     messages := _configure_messages classes |}.

Definition set_queue (q : list message) (s : Session) : Session :=
  {| realm := realm s; roles := roles s; onchallenge := onchallenge s;
     subscription_map := subscription_map s;
     registration_map := registration_map s;
     session_id := session_id s; _connection := _connection s;
     _managed_thread := _managed_thread s; _message_queue := q;
     message_handler := message_handler s; session := session s |}.

Definition upd_sess {C} (f : Session -> Session) (h : Heap C) : Heap C :=
  {| sess := f (sess h); transport := transport h; client := client h |}.

(** [message_queue.put(message)]. *)
Definition queue_put {C} (m : message) : M (Heap C) unit :=
  modify (upd_sess (fun s => set_queue (_message_queue s ++ [m]) s)).

Section Handler.
Context `{Externals}.

(** [message_class( *message)]. *)
Definition construct (c : message_class) (m : message) : res MessageObj :=
  match c with
  | Challenge => Challenge_init m
  | _ => init_message c m
  end.

(** [handle_message(message)] of the session's handler. *)
Definition handle_message (m : message) : M (Heap ClientState) unit :=
  wamp_code <- lift_res (item m 0) ;;
  handler <- gets (fun h => message_handler (sess h)) ;;
  found <- lift_res (find_key (messages handler) wamp_code) ;;
  match found with
  | None =>
      name <- lift_res (getitem MESSAGE_TYPE_MAP wamp_code) ;;
      raise WampyError "No message handler is configured for: {}" [PStr name]
  | Some message_class =>
      _ <- lift_res (getitem MESSAGE_TYPE_MAP wamp_code) ;;
      message_obj <- lift_res (construct message_class m) ;;
      process message_obj m ;;;
      queue_put m
  end.

End Handler.

End Handler.
Import Handler.

(** * The session ([wampy/session.py]) *)

Module Sessions.

Definition set_session_id (v : pyval) (s : Session) : Session :=
  {| realm := realm s; roles := roles s; onchallenge := onchallenge s;
     subscription_map := subscription_map s;
     registration_map := registration_map s;
     session_id := v; _connection := _connection s;
     _managed_thread := _managed_thread s;
     _message_queue := _message_queue s;
     message_handler := message_handler s; session := session s |}.

Definition set_subscription_map (d : gmap string pyval) (s : Session)
  : Session :=
  {| realm := realm s; roles := roles s; onchallenge := onchallenge s;
     subscription_map := d;
     registration_map := registration_map s;
     session_id := session_id s; _connection := _connection s;
     _managed_thread := _managed_thread s;
     _message_queue := _message_queue s;
     message_handler := message_handler s; session := session s |}.

Definition set_registration_map (d : gmap string pyval) (s : Session)
  : Session :=
  {| realm := realm s; roles := roles s; onchallenge := onchallenge s;
     subscription_map := subscription_map s;
     registration_map := d;
     session_id := session_id s; _connection := _connection s;
     _managed_thread := _managed_thread s;
     _message_queue := _message_queue s;
     message_handler := message_handler s; session := session s |}.

Definition set_connection (c : option TransportRef) (s : Session) : Session :=
  {| realm := realm s; roles := roles s; onchallenge := onchallenge s;
     subscription_map := subscription_map s;
     registration_map := registration_map s;
     session_id := session_id s; _connection := c;
     _managed_thread := _managed_thread s;
     _message_queue := _message_queue s;
     message_handler := message_handler s; session := session s |}.

Definition set_managed_thread (t : option GreenThread) (s : Session)
  : Session :=
  {| realm := realm s; roles := roles s; onchallenge := onchallenge s;
     subscription_map := subscription_map s;
     registration_map := registration_map s;
     session_id := session_id s; _connection := _connection s;
     _managed_thread := t;
     _message_queue := _message_queue s;
     message_handler := message_handler s; session := session s |}.

Definition set_session_attr (v : pyval) (s : Session) : Session :=
  {| realm := realm s; roles := roles s; onchallenge := onchallenge s;
     subscription_map := subscription_map s;
     registration_map := registration_map s;
     session_id := session_id s; _connection := _connection s;
     _managed_thread := _managed_thread s;
     _message_queue := _message_queue s;
     message_handler := message_handler s; session := v |}.

Definition set_transport {C} (ws : WebSocket) (h : Heap C) : Heap C :=
  {| sess := sess h; transport := ws; client := client h |}.

(** [Session.__init__(client, router, realm, transport,
    message_handler=None, onchallenge=None)] with the default handler. *)
Definition Session_init (realm : string) (roles : pyval)
  (onchallenge : option (MessageObj -> res pyval)) : Session :=
  {| realm := realm; roles := roles; onchallenge := onchallenge;
     subscription_map := ∅; registration_map := ∅;
     session_id := PNone; _connection := None; _managed_thread := None;
     _message_queue := [];
     message_handler := MessageHandler_init None; session := PNone |}.

Section Sessions.
Context `{Externals}.

(** ** The dispatcher: [connection_handler] of [_listen_on_connection] *)

(** [except (SystemExit, KeyboardInterrupt, ConnectionError,
    WampProtocolError): break]. *)
Definition breaks_loop (e : exn) : bool :=
  caught_by [SystemExit; KeyboardInterrupt; ConnectionError; WampProtocolError]
    e.

Definition leave_loop (e : exn) : GreenThread :=
  if breaks_loop e then Stopped else Crashed e.

(** The [while True] loop of [connection_handler], run on the reads that are
    available until it suspends in [recv], leaves the loop or lets an
    exception escape.  It is entered in the middle of a frame, with the
    bytes received so far.  Each frame uses up at least one read, which
    bounds the number of turns. *)
Fixpoint connection_handler_from (fuel : nat) (received_bytes : string)
  (reads : list recv_result) (h : Heap ClientState)
  : GreenThread * Heap ClientState :=
  match fuel with
  | O => (Suspended received_bytes, h)
  | S fuel' =>
      match read_websocket_frame_from received_bytes reads with
      | (ReadBlocked received_bytes, _) => (Suspended received_bytes, h)
      | (ReadRaised e, _) => (leave_loop e, h)
      | (FrameRead frame, rest) =>
          if frame_truthy frame then
            let message := payload frame in
            match handle_message message h with
            | (Ok _, h) => connection_handler_from fuel' "" rest h
            | (Raise e, h) => (leave_loop e, h)
            end
          else connection_handler_from fuel' "" rest h
      end
  end.

(** [connection_handler], from its first statement. *)
Definition connection_handler (reads : list recv_result)
  (h : Heap ClientState) : GreenThread * Heap ClientState :=
  connection_handler_from (S (length reads)) "" reads h.

(** [_listen_on_connection]: the handler is spawned, and runs when the
    spawning thread next yields. *)
Definition _listen_on_connection (h : Heap ClientState) : Heap ClientState :=
  upd_sess (set_managed_thread (Some (Suspended ""))) h.

(** The dispatcher takes its turn on a burst of reads. *)
Definition run_dispatcher (burst : list recv_result) (h : Heap ClientState)
  : Heap ClientState :=
  match _managed_thread (sess h) with
  | Some (Suspended received_bytes) =>
      let '(t, h) :=
        connection_handler_from (S (length burst)) received_bytes burst h in
      upd_sess (set_managed_thread (Some t)) h
  | _ => h
  end.

(** [gthread.kill()]: [GreenletExit] is raised in the suspended [recv],
    which [read_websocket_frame] turns into [ConnectionError]; the loop
    breaks on it. *)
Definition kill (t : GreenThread) : GreenThread :=
  match t with
  | Suspended _ => Stopped
  | Stopped => Stopped
  | Crashed e => Crashed e
  end.

(** ** The world a session runs in *)

(** The objects, a clock in milliseconds, what the network will deliver
    (each burst of socket reads with the delay, after the previous one,
    at which it becomes readable) and the failures of the coming
    [sendall] calls.  The clock counts the time the session spends asleep
    in [_wait_for_message], where its timeouts run; the statements between
    two waits, the [onchallenge] callback and [sendall] among them, are
    not timed. *)
Record World : Type := {
  heap : Heap ClientState;
  clock : nat;
  wire : list (nat * list recv_result);
  send_faults : list (option exn)
}.

Definition upd_heap (f : Heap ClientState -> Heap ClientState) (w : World)
  : World :=
  {| heap := f (heap w); clock := clock w; wire := wire w;
     send_faults := send_faults w |}.

Definition on_session (f : Session -> Session) : M World unit :=
  modify (upd_heap (upd_sess f)).

Definition the_session (w : World) : Session := sess (heap w).

(** [send_message(message)]. *)
Definition send_message (message : MessageObj) : M World unit :=
  _ <- lift_res
         (getitem MESSAGE_TYPE_MAP (PInt (WAMP_CODE (obj_class message)))) ;;
  let text := serialize message in
  fun w =>
    match _connection (the_session w) with
    | None =>
        (Raise (Exn AttributeError
           "'NoneType' object has no attribute 'send_websocket_frame'" []), w)
    | Some TheTransport =>
        let fault := default None (head (send_faults w)) in
        let '(r, ws) := send_websocket_frame fault text (transport (heap w)) in
        let faults :=
          match socket (transport (heap w)) with
          | Some _ => tail (send_faults w)      (* [sendall] was called *)
          | None => send_faults w
          end in
        (r, {| heap := set_transport ws (heap w); clock := clock w;
               wire := wire w; send_faults := faults |})
    end.

(** The loop [while q.qsize() == 0: eventlet.sleep()] under an
    [eventlet.Timeout] with [remaining] milliseconds to run.  While the
    caller sleeps the dispatcher handles the next burst of reads, if that
    becomes readable before the timer fires. *)
Fixpoint wait_for_queue (remaining : nat) (wire : list (nat * list recv_result))
  (clock : nat) (h : Heap ClientState)
  : res unit * (Heap ClientState * nat * list (nat * list recv_result)) :=
  match _message_queue (sess h) with
  | _ :: _ => (Ok tt, (h, clock, wire))
  | [] =>
      match wire with
      | [] =>
          (Raise (Exn EventletTimeout "" []), (h, clock + remaining, []))%nat
      | (delay, burst) :: wire' =>
          if (delay <? remaining)%nat then
            wait_for_queue (remaining - delay) wire' (clock + delay)
              (run_dispatcher burst h)
          else
            (Raise (Exn EventletTimeout "" []),
             (h, clock + remaining, (delay - remaining, burst) :: wire'))%nat
      end
  end.

(** [_wait_for_message(timeout)], [timeout] in seconds. *)
Definition _wait_for_message (timeout : nat) : M World message :=
  fun w =>
    match wait_for_queue (1000 * timeout) (wire w) (clock w) (heap w) with
    | (Raise e, (h, c, wi)) =>
        (Raise e,
         {| heap := h; clock := c; wire := wi; send_faults := send_faults w |})
    | (Ok _, (h, c, wi)) =>
        let w' := {| heap := h; clock := c; wire := wi;
                     send_faults := send_faults w |} in
        (* [q.get()]: the loop is left only on a queue that is not empty *)
        match _message_queue (sess h) with
        | message :: q =>
            (Ok message, upd_heap (upd_sess (set_queue q)) w')
        | [] => (Raise (Exn EventletTimeout "" []), w')
        end
    end.

(** [recv_message(timeout=5)]. *)
Definition recv_message (timeout : nat) : M World message :=
  message <-
    try_except (_wait_for_message timeout) (caught_by [EventletTimeout])
      (fun _ => raise WampProtocolError "no message returned" []) ;;
  wamp_code <- lift_res (item message 0) ;;
  _ <- lift_res (getitem MESSAGE_TYPE_MAP wamp_code) ;;
  ret message.

(** [a, b, c = response]. *)
Definition unpack3 (response : message) : res (pyval * pyval * pyval) :=
  match response with
  | [a; b; c] => Ok (a, b, c)
  | _ => Raise (Exn ValueError "wrong number of values to unpack" [])
  end.

(** [_say_hello]. *)
Definition _say_hello : M World message :=
  s <- gets the_session ;;
  let message := Hello_init (realm s) (roles s) in
  send_message message ;;;
  response <- recv_message 5 ;;
  fields <- lift_res (unpack3 response) ;;
  let '(wamp_code, session_id, _) := fields in
  (* the server may request us to authenticate *)
  answer <-
    (if eq_int wamp_code Message.CHALLENGE then
       callback <- gets (fun w => onchallenge (the_session w)) ;;
       match callback with
       | None =>
           raise WampError
             "Unable to respond to challenge as onchallenge has not been defined"
             []
       | Some callback =>
           signature <- lift_res (callback message) ;;
           let message := Authenticate_init signature PNone in
           send_message message ;;;
           response <- recv_message 5 ;;
           fields <- lift_res (unpack3 response) ;;
           let '(wamp_code, session_id, _) := fields in
           ret (response, wamp_code, session_id)
       end
     else ret (response, wamp_code, session_id)) ;;
  let '(response, wamp_code, session_id) := answer in
  (* response message must be either WELCOME or ABORT *)
  if negb (in_ints wamp_code [Message.WELCOME; Message.ABORT]) then
    raise WampError "unexpected response from HELLO message: {}"
      [PList response]
  else
    on_session (set_session_id session_id) ;;;
    ret response.

(** [_say_goodbye]. *)
Definition _say_goodbye : M World unit :=
  let message := Goodbye_init 6 in
  fun w =>
    match send_message message w with
    | (Raise e, w) =>
        if is_Exception (exn_cls e)
        then (Ok tt, w)            (* [logger.warning("GOODBYE failed!")] *)
        else (Raise e, w)
    | (Ok _, w) =>
        try_except
          (message <- recv_message 2 ;;
           code <- lift_res (item message 0) ;;
           if negb (eq_int code Message.GOODBYE) then
             raise WampProtocolError
               "Unexpected response from GOODBYE message: {}" [PList message]
           else ret tt)
          (caught_by [WampProtocolError])
          (fun _ => ret tt)
          w
    end.

(** [_disconnet]. *)
Definition _disconnet : M World unit :=
  s <- gets the_session ;;
  match _managed_thread s with
  | None =>
      raise AttributeError "'NoneType' object has no attribute 'kill'" []
  | Some t =>
      on_session (set_managed_thread (Some (kill t))) ;;;
      on_session (set_connection None) ;;;
      on_session (set_session_attr PNone)
  end.

(** [end]. *)
Definition end_ : M World unit :=
  _say_goodbye ;;;
  _disconnet ;;;
  on_session (set_subscription_map ∅) ;;;
  on_session (set_registration_map ∅) ;;;
  on_session (set_session_id PNone).

End Sessions.

End Sessions.
Import Sessions.

(** * The caller proxies ([wampy/roles/caller.py]) *)

Module Caller.

Section Caller.
Context `{Externals}.

(** [CallProxy.__call__(procedure, *args, **kwargs)]; [request_id] is the id
    the [Call] message is given. *)
Definition CallProxy_call (request_id : Z) (procedure : string)
  (args : list pyval) (kwargs : list (string * pyval))
  : M ClientState pyval :=
  let message := Call_init request_id procedure args kwargs in
  response <- send_message_and_wait_for_response message ;;
  wamp_code <- lift_res (item response 0) ;;
  if eq_int wamp_code Message.ERROR then
    ret (PList response)
  else if eq_int wamp_code Message.RESULT then
    results <- lift_res (item response 3) ;;
    result <- lift_res (subscript results 0) ;;
    ret result
  else
    raise WampProtocolError "unexpected response: %s" [PList response].

(** The [wrapper] that [RpcProxy.__getattr__(name)] returns. *)
Definition RpcProxy_wrapper (request_id : Z) (name : string)
  (args : list pyval) (kwargs : list (string * pyval))
  : M ClientState pyval :=
  let message := Call_init request_id name args kwargs in
  response <- send_message_and_wait_for_response message ;;
  wamp_code <- lift_res (item response 0) ;;
  if negb (eq_int wamp_code Message.RESULT) then
    type_name <- lift_res (getitem MESSAGE_TYPE_MAP wamp_code) ;;
    detail <- lift_res (item response 5) ;;
    raise WampProtocolError
      ("unexpected message code: " +:+ dquote +:+ "%s (%s) %s" +:+ dquote)
      [wamp_code; PStr type_name; detail]
  else
    results <- lift_res (item response 3) ;;
    result <- lift_res (subscript results 0) ;;
    ret result.

End Caller.

End Caller.
Import Caller.

(** * Building and beginning a session ([session_builder], [_connect],
      [begin]) and the TLS transport ([TLSWebSocket.__init__]) *)

Module Lifecycle.

(** The attributes of the router object that [session_builder] reads. *)
Record Router : Type := {
  router_host : string;
  router_port : Z;
  can_use_tls : bool;
  router_certificate : string
}.

(** [ssl.PROTOCOL_TLSv1] and [ssl.PROTOCOL_TLSv1_2] of the Python library. *)
Definition PROTOCOL_TLSv1 : Z := 3.
Definition PROTOCOL_TLSv1_2 : Z := 5.

(** [TLSWebSocket]: the attributes of a [WebSocket] and those of its own. *)
Record TLSWebSocket : Type := {
  base : WebSocket;
  ssl_version : pyval;
  certificate : string;
  buffersize : Z
}.

(** [TLSWebSocket.__init__(host, port, websocket_location, certificate,
    ssl_version=None)]; [has_TLSv1_2] is
    [hasattr(ssl, 'PROTOCOL_TLSv1_2')]. *)
Definition TLSWebSocket_init (has_TLSv1_2 : bool) (host : string) (port : Z)
  (websocket_location : string) (certificate : string) (ssl_version : pyval)
  (uuid_bytes : string) : TLSWebSocket :=
  {| base :=
       {| host := host;
          port := port;
          websocket_location := Str.lstrip_char "/" websocket_location;
          key := Str.strip (encodestring uuid_bytes);
          socket := None;
          status := None;
          headers := ∅ |};
     ssl_version :=
       if truthy ssl_version then ssl_version
       else if has_TLSv1_2 then py_or ssl_version (PInt PROTOCOL_TLSv1_2)
       else py_or ssl_version (PInt PROTOCOL_TLSv1);
     certificate := certificate;
     buffersize := 1 |}.

(** The transport of a session. *)
Inductive Transport : Type :=
| Plain (ws : WebSocket)
| TLS (tls : TLSWebSocket).

(** The [WebSocket] attributes of either transport.  [TLSWebSocket] inherits
    the methods of [WebSocket] but two: [_connect], which differs only in
    how the socket is made before it is connected, and
    [_recv_handshake_response_by_line], which it repeats unchanged. *)
Definition as_websocket (t : Transport) : WebSocket :=
  match t with
  | Plain ws => ws
  | TLS tls => base tls
  end.

(** [session_builder(client, router, realm, transport="ws",
    message_handler=None, onchallenge=None)] with the default handler;
    [roles] is [client.roles]. *)
Definition session_builder (has_TLSv1_2 : bool) (uuid_bytes : string)
  (roles : pyval) (router : Router) (realm : string) (transport : string)
  (onchallenge : option (MessageObj -> res pyval))
  : res (Session * Transport) :=
  if String.eqb transport "ws" then
    let use_tls := can_use_tls router in
    let transport :=
      if use_tls then
        TLS (TLSWebSocket_init has_TLSv1_2 (router_host router)
               (router_port router) "ws" (router_certificate router) PNone
               uuid_bytes)
      else
        Plain (WebSocket_init (router_host router) (router_port router) "ws"
                 uuid_bytes) in
    Ok (Session_init realm roles onchallenge, transport)
  else
    Raise (Exn WampError "transport not supported: {}" [PStr transport]).

Section Lifecycle.
Context `{Externals}.

(** The world of a session as [session_builder] returns it, with the
    state of its client, before anything has gone over the network. *)
Definition built_world (built : Session * Transport) (client : ClientState)
  (wire : list (nat * list recv_result)) (send_faults : list (option exn))
  : World :=
  {| heap := {| sess := fst built;
                transport := as_websocket (snd built);
                client := client |};
     clock := 0;
     wire := wire;
     send_faults := send_faults |}.

(** What the handshake left unread on the socket is readable at once, one
    byte to a [recv(1)]. *)
Definition unread (rest : string) : list (nat * list recv_result) :=
  match rest with
  | EmptyString => []
  | _ =>
      [(0%nat, map (fun c => RecvData (String c EmptyString)) (Str.chars rest))]
  end.

(** [Session._connect]: [tcp] is the outcome of opening the socket,
    [send_fault] that of sending the handshake on it, and [input] what the
    router sends on it, the handshake response first; [recv_fault] is the
    failure of the read that follows [input], should the handshake get
    there. *)
Definition Session_connect (tcp : res unit) (send_fault recv_fault : option exn)
  (input : string) (w : World) : outcome unit * World :=
  let '(r, ws, rest) :=
    connect tcp send_fault recv_fault (transport (heap w)) input in
  let w1 := upd_heap (set_transport ws) w in
  match r with
  | Hangs => (Hangs, w1)
  | Returns (Raise e) =>
      if is_Exception (exn_cls e)
      then (Returns (Raise (Exn ConnectionError "{}" [PStr (exn_msg e)])), w1)
      else (Returns (Raise e), w1)
  | Returns (Ok _) =>
      (Returns (Ok tt),
       {| heap :=
            upd_sess (set_connection (Some TheTransport))
              (_listen_on_connection (heap w1));
          clock := clock w1;
          wire := unread rest ++ wire w1;
          send_faults := send_faults w1 |})
  end.

(** [begin]. *)
Definition begin (tcp : res unit) (send_fault recv_fault : option exn)
  (input : string) (w : World) : outcome unit * World :=
  match Session_connect tcp send_fault recv_fault input w with
  | (Returns (Ok _), w1) =>
      match _say_hello w1 with
      | (Ok _, w2) => (Returns (Ok tt), w2)
      | (Raise e, w2) => (Returns (Raise e), w2)
      end
  | (r, w1) => (r, w1)
  end.

End Lifecycle.

End Lifecycle.
Import Lifecycle.

(** * A sample instance of the external parts

    A plain JSON printer, frames that carry their text unmasked, a toy wire
    format for inbound frames (fields separated by commas, a frame ended by
    a semicolon), message classes that accept every message, processing
    that changes nothing, and a client whose router replies are scripted. *)

Module Sample.

Definition quote (s : string) : string :=
  let q := String (ascii_of_nat 34) EmptyString in q +:+ s +:+ q.

Fixpoint dumps (v : pyval) : string :=
  match v with
  | PNone => "null"
  | PInt z => pretty z
  | PStr s => quote s
  | PList l => "[" +:+ Str.join ", " (map dumps l) +:+ "]"
  | PDict d =>
      "{" +:+ Str.join ", " (map (fun kv => quote (fst kv) +:+ ": " +:+ dumps (snd kv)) d)
      +:+ "}"
  end.

Definition field (s : string) : pyval :=
  match Str.int s with
  | Some z => PInt z
  | None => PStr s
  end.

Definition parse_frame (bytes : string) : res message :=
  match rev (Str.chars bytes) with
  | c :: body =>
      if Ascii.eqb c ";" then
        Ok (map field
              (Str.split "," (String.length bytes) (Str.of_chars (rev body))))
      else Raise (Exn IncompleteFrameError "" [])
  | [] => Raise (Exn IncompleteFrameError "" [])
  end.

(** The replies the router will give to the client's calls, in order. *)
Definition scripted_call (m : MessageObj) (replies : list message)
  : res message * list message :=
  match replies with
  | r :: replies' => (Ok r, replies')
  | [] => (Raise (Exn WampProtocolError "no message returned" []), [])
  end.

#[local] Instance externals : Externals := {|
  ClientState := list message;
  serialize := fun m => dumps (PList (obj_message m));
  ClientFrame := fun text => text;
  Frame := message;
  ServerFrame := parse_frame;
  payload := fun f => f;
  frame_truthy := fun _ => true;
  init_message := fun c m => Ok {| obj_class := c; obj_message := m |};
  process := fun _ _ h => (Ok tt, h);
  send_message_and_wait_for_response := scripted_call
|}.

(** One [recv(1)] per byte of [s]. *)
Definition reads_of (s : string) : list recv_result :=
  map (fun c => RecvData (String c EmptyString)) (Str.chars s).

Definition the_roles : pyval :=
  PDict [("caller", PDict []); ("callee", PDict [("features", PDict [])]);
         ("publisher", PDict []); ("subscriber", PDict [])].

Definition a_uuid : string := "0123456789abcdef".

(** A transport after [connect]: the socket is open and nothing was sent
    on it since the handshake. *)
Definition connected_transport : WebSocket :=
  set_socket (Some {| sent := []; closed := false |})
    (WebSocket_init "localhost" 8080 "ws" a_uuid).

(** A session after [_connect]: the dispatcher is spawned and [_connection]
    names the transport. *)
Definition connected_session
  (onchallenge : option (MessageObj -> res pyval)) : Session :=
  set_connection (Some TheTransport)
    (set_managed_thread (Some (Suspended ""))
       (Session_init "realm1" the_roles onchallenge)).

Definition world (onchallenge : option (MessageObj -> res pyval))
  (wire : list (nat * list recv_result)) : World :=
  {| heap := {| sess := connected_session onchallenge;
                transport := connected_transport;
                client := [] |};
     clock := 0;
     wire := wire;
     send_faults := [] |}.

(** A session that was never begun. *)
Definition fresh_world : World :=
  {| heap := {| sess := Session_init "realm1" the_roles None;
                transport := WebSocket_init "localhost" 8080 "ws" a_uuid;
                client := [] |};
     clock := 0;
     wire := [];
     send_faults := [] |}.

(** The reply of scenario S5: the router knows no registration "spam". *)
Definition no_such_registration : message :=
  [PInt 8; PInt 48; PInt 1; PDict [];
   PStr "wamp.error.no_such_registration";
   PList [PStr "no registration with ID spam exists on this dealer"]].


(** The headers [_read_handshake_response] collects from it. *)
Definition not_found_headers : gmap string pyval :=
  list_to_map
    [("status_info", PList [PStr "HTTP/1.1"; PStr "404"; PStr "Not Found"]);
     ("status", PInt 404);
     ("server", PStr "router")].

(** A handshake response that accepts the upgrade. *)
Definition switching : string :=
  "HTTP/1.1 101 Switching Protocols" +:+ CRLF
  +:+ "Upgrade: websocket" +:+ CRLF +:+ CRLF.

Definition a_router : Router :=
  {| router_host := "localhost"; router_port := 8080; can_use_tls := false;
     router_certificate := "" |}.

End Sample.

(** * Notions used in the statements *)

Section Notions.
Context `{Externals}.

(** The world after a successful [send_message]: the frame is appended to
    what the socket has sent. *)
Definition after_send (message : MessageObj) (sk : Socket) (w : World)
  : World :=
  {| heap :=
       set_transport
         (set_socket
            (Some {| sent := sent sk ++ [ClientFrame (serialize message)];
                     closed := closed sk |})
            (transport (heap w)))
         (heap w);
     clock := clock w;
     wire := wire w;
     send_faults := tail (send_faults w) |}.

(** A message that [recv_message] can name: its first element is a code of
    [MESSAGE_TYPE_MAP]. *)
Definition known_message (m : message) : bool :=
  match m with
  | PInt code :: _ => bool_decide (is_Some (MESSAGE_TYPE_MAP !! code))
  | _ => false
  end.

(** The general queue holds only such messages. *)
Definition queue_known (h : Heap ClientState) : Prop :=
  forallb known_message (_message_queue (sess h)) = true.

(** Processing a message object keeps the general queue so. *)
Definition process_keeps_queue_known : Prop :=
  forall obj m h r h',
    process obj m h = (r, h') -> queue_known h -> queue_known h'.

(** If the next [sendall] fails, it fails with an [Exception]. *)
Definition faults_are_exceptions (w : World) : bool :=
  match head (send_faults w) with
  | Some (Some e) => is_Exception (exn_cls e)
  | _ => true
  end.

(** The terminal response of the [_say_hello] exchange, in the words of
    section 4.D: the message received in reply to HELLO, unless that is a
    CHALLENGE which the caller's [on_challenge] answers; then it is the
    message received in reply to AUTHENTICATE.  The third argument is the
    world in which it has been received. *)
Inductive terminal_response (w : World) : message -> World -> Prop :=
| terminal_direct (w1 w2 : World) (code a b : pyval) :
    send_message
      (Hello_init (realm (the_session w)) (roles (the_session w))) w
    = (Ok tt, w1) ->
    recv_message 5 w1 = (Ok [code; a; b], w2) ->
    eq_int code Message.CHALLENGE = false ->
    terminal_response w [code; a; b] w2
| terminal_challenged (w1 w2 w3 w4 : World) (code method extra : pyval)
    (callback : MessageObj -> res pyval) (signature : pyval)
    (response : message) :
    send_message
      (Hello_init (realm (the_session w)) (roles (the_session w))) w
    = (Ok tt, w1) ->
    recv_message 5 w1 = (Ok [code; method; extra], w2) ->
    eq_int code Message.CHALLENGE = true ->
    onchallenge (the_session w2) = Some callback ->
    callback (Hello_init (realm (the_session w)) (roles (the_session w)))
    = Ok signature ->
    send_message (Authenticate_init signature PNone) w2 = (Ok tt, w3) ->
    recv_message 5 w3 = (Ok response, w4) ->
    terminal_response w response w4.

(** How [_say_hello] ends on a terminal response of three elements. *)
Definition hello_outcome (response : message) (code a : pyval) (w : World)
  : res message * World :=
  if in_ints code [Message.WELCOME; Message.ABORT]
  then (Ok response, upd_heap (upd_sess (set_session_id a)) w)
  else (Raise (Exn WampError "unexpected response from HELLO message: {}"
                 [PList response]), w).

End Notions.

(** * Notions used in further statements *)

Section Timing.
Context `{Externals}.

(** Nothing becomes readable on the wire within [ms] milliseconds. *)
Definition quiet_for (ms : nat) (wire : list (nat * list recv_result)) : bool :=
  match wire with
  | [] => true
  | (delay, _) :: _ => (ms <=? delay)%nat
  end.

(** The wire [ms] milliseconds later, when it was quiet for that long. *)
Definition elapse (ms : nat) (wire : list (nat * list recv_result))
  : list (nat * list recv_result) :=
  match wire with
  | [] => []
  | (delay, burst) :: wire' => ((delay - ms)%nat, burst) :: wire'
  end.

(** The dispatcher thread of a session is not waiting for input: it was
    never spawned, or it has finished. *)
Definition dispatcher_dead (s : Session) : bool :=
  match _managed_thread s with
  | Some (Suspended _) => false
  | _ => true
  end.

End Timing.

(** * Notions used in the statements about the handshake *)



(** * Properties *)

(** Unfolding the statements of the effect monad. *)
Ltac run :=
  unfold bind, lift_res, gets, modify, ret, raise, reraise, try_except,
    on_session, queue_put in *.

(** ** The message handler *)

Section HandlerFacts.
Context `{Externals}.

Lemma default_handler_lookup (c : message_class) :
  c ∈ default_messages_to_handle ->
  messages (MessageHandler_init None) !! WAMP_CODE c = Some c
  /\ is_Some (MESSAGE_TYPE_MAP !! WAMP_CODE c).
Proof.
  unfold default_messages_to_handle. intros Hc.
  repeat (apply elem_of_cons in Hc as [-> | Hc];
          [split; [vm_compute; reflexivity | eexists; vm_compute; reflexivity] |]).
  apply elem_of_nil in Hc. destruct Hc.
Qed.

(** A message whose code the handler is configured for is constructed,
    processed and then put on the queue. *)
Lemma handle_message_configured (h h' : Heap ClientState) (code : Z)
  (rest : list pyval) (c : message_class) (obj : MessageObj) :
  messages (message_handler (sess h)) !! code = Some c ->
  is_Some (MESSAGE_TYPE_MAP !! code) ->
  construct c (PInt code :: rest) = Ok obj ->
  process obj (PInt code :: rest) h = (Ok tt, h') ->
  handle_message (PInt code :: rest) h
  = (Ok tt,
     upd_sess (fun s => set_queue (_message_queue s ++ [PInt code :: rest]) s)
       h').
Proof.
  intros Hm [name Hname] Hc Hp.
  unfold handle_message. run.
  cbn [item subscript nth_error find_key].
  rewrite Hm. unfold getitem. cbn [find_key].
  rewrite Hname, Hc, Hp. reflexivity.
Qed.

(** A message whose code the handler is not configured for, but which
    [MESSAGE_TYPE_MAP] names, is refused with [WampyError]; nothing is put
    on the queue. *)
Lemma handle_message_refused (h : Heap ClientState) (code : Z)
  (rest : list pyval) (name : string) :
  messages (message_handler (sess h)) !! code = None ->
  MESSAGE_TYPE_MAP !! code = Some name ->
  handle_message (PInt code :: rest) h
  = (Raise (Exn WampyError "No message handler is configured for: {}"
              [PStr name]), h).
Proof.
  intros Hm Hname.
  unfold handle_message. run.
  cbn [item subscript nth_error find_key].
  rewrite Hm. unfold getitem. cbn [find_key].
  rewrite Hname. reflexivity.
Qed.

End HandlerFacts.

Section QueueFacts.
Context `{Externals}.

(** On a queue that is not empty the wait returns at once. *)
Lemma wait_for_queue_ready (remaining : nat) (wi : list (nat * list recv_result))
  (cl : nat) (h : Heap ClientState) (m : message) (q : list message) :
  _message_queue (sess h) = m :: q ->
  wait_for_queue remaining wi cl h = (Ok tt, (h, cl, wi)).
Proof.
  intros Hq. destruct wi as [| [d b] wi]; cbn [wait_for_queue];
    rewrite Hq; reflexivity.
Qed.

(** [recv_message] pops the head of the queue when there is one and
    [MESSAGE_TYPE_MAP] names its code. *)
Lemma recv_message_ready (timeout : nat) (w : World) (code : Z)
  (rest : list pyval) (q : list message) (name : string) :
  _message_queue (the_session w) = (PInt code :: rest) :: q ->
  MESSAGE_TYPE_MAP !! code = Some name ->
  recv_message timeout w
  = (Ok (PInt code :: rest), upd_heap (upd_sess (set_queue q)) w).
Proof.
  intros Hq Hn. unfold recv_message, _wait_for_message. run.
  unfold the_session in Hq.
  rewrite (wait_for_queue_ready _ _ _ _ _ _ Hq), Hq.
  unfold getitem. cbn [item subscript nth_error find_key].
  rewrite Hn. destruct w; reflexivity.
Qed.

End QueueFacts.

(** C6 (as amended).  On the default handler, an inbound WELCOME, CHALLENGE
    or GOODBYE message that its class accepts and whose processing succeeds
    is put at the back of the general queue after processing; an inbound
    ABORT is refused with [WampyError] and nothing is put on the queue. *)
Theorem lifecycle_messages_queued `{Externals} (h h' : Heap ClientState)
  (c : message_class) (rest : list pyval) (obj : MessageObj) :
  message_handler (sess h) = MessageHandler_init None ->
  c ∈ [Welcome; Challenge; Goodbye] ->
  construct c (PInt (WAMP_CODE c) :: rest) = Ok obj ->
  process obj (PInt (WAMP_CODE c) :: rest) h = (Ok tt, h') ->
  handle_message (PInt (WAMP_CODE c) :: rest) h
  = (Ok tt,
     upd_sess
       (fun s => set_queue (_message_queue s ++ [PInt (WAMP_CODE c) :: rest]) s)
       h')
  /\ forall rest',
      handle_message (PInt Message.ABORT :: rest') h
      = (Raise (Exn WampyError "No message handler is configured for: {}"
                  [PStr "ABORT"]), h).
Proof.
  intros Hh Hc Hobj Hp. split.
  - assert (Hd : c ∈ default_messages_to_handle).
    { unfold default_messages_to_handle.
      repeat (apply elem_of_cons in Hc as [-> | Hc]; [set_solver |]).
      apply elem_of_nil in Hc. destruct Hc. }
    destruct (default_handler_lookup c Hd) as [Hm Hn].
    apply handle_message_configured with (c := c) (obj := obj); auto.
    rewrite Hh. exact Hm.
  - intros rest'. apply handle_message_refused.
    + rewrite Hh. vm_compute. reflexivity.
    + vm_compute. reflexivity.
Qed.

Lemma lifecycle_messages_queued_witness :
  let h := heap (Sample.world None []) in
  let m := [PInt 2; PInt 77; PDict []] in
  handle_message (H := Sample.externals) m h
  = (Ok tt, upd_sess (fun s => set_queue (_message_queue s ++ [m]) s) h).
Proof.
  intros h m.
  apply (lifecycle_messages_queued (H := Sample.externals) h h Welcome
           [PInt 77; PDict []] {| obj_class := Welcome; obj_message := m |}).
  - reflexivity.
  - set_solver.
  - reflexivity.
  - reflexivity.
Defined.

(** C6: an inbound ABORT is not pushed onto the general queue by the default
    handler; handling it fails with [WampyError]. *)
Lemma abort_is_not_queued :
  let h := heap (Sample.world None []) in
  let m := [PInt 3; PDict []; PStr "wamp.error.no_such_realm"] in
  raised_class (fst (handle_message (H := Sample.externals) m h))
  = Some WampyError
  /\ _message_queue (sess (snd (handle_message (H := Sample.externals) m h)))
     = [].
Proof. vm_compute. split; reflexivity. Qed.


(** C10 (as amended).  On the default handler, a message whose code is
    that of one of the ten accepted classes is put at the back of the
    general queue, whatever its type, once its object has been constructed
    and processed without error, and [recv_message] pops it from that same
    queue.  When its class refuses the message, or processing it fails,
    [handle_message] fails with that error and puts nothing on the queue. *)
Theorem accepted_messages_reach_general_queue `{Externals}
  (h : Heap ClientState) (c : message_class) (rest : list pyval) :
  message_handler (sess h) = MessageHandler_init None ->
  c ∈ [Welcome; Challenge; Goodbye; Registered; Invocation; Yield; Result;
       Error; Subscribed; Event] ->
  let m := PInt (WAMP_CODE c) :: rest in
  match construct c m with
  | Raise e => handle_message m h = (Raise e, h)
  | Ok obj =>
      match process obj m h with
      | (Raise e, h') => handle_message m h = (Raise e, h')
      | (Ok _, h') =>
          exists h'',
            handle_message m h = (Ok tt, h'')
            /\ _message_queue (sess h'') = _message_queue (sess h') ++ [m]
            /\ forall (w : World) (timeout : nat),
                heap w = h'' ->
                _message_queue (sess h') = [] ->
                fst (recv_message timeout w) = Ok m
                /\ _message_queue (the_session (snd (recv_message timeout w)))
                   = []
      end
  end.
Proof.
  intros Hh Hc m.
  destruct (default_handler_lookup c Hc) as [Hm [name Hn]].
  assert (Hhandle : handle_message m h
                    = match construct c m with
                      | Raise e => (Raise e, h)
                      | Ok obj =>
                          match process obj m h with
                          | (Raise e, h') => (Raise e, h')
                          | (Ok _, h') =>
                              (Ok tt,
                               upd_sess
                                 (fun s =>
                                    set_queue (_message_queue s ++ [m]) s) h')
                          end
                      end).
  { unfold handle_message. run. subst m.
    cbn [item subscript nth_error find_key].
    rewrite Hh, Hm. unfold getitem. cbn [find_key]. rewrite Hn.
    destruct (construct c (PInt (WAMP_CODE c) :: rest)) as [obj | e];
      [| reflexivity].
    destruct (process obj (PInt (WAMP_CODE c) :: rest) h) as [[[] | e] h'];
      reflexivity. }
  destruct (construct c m) as [obj | e]; [| exact Hhandle].
  destruct (process obj m h) as [[[] | e] h']; [| exact Hhandle].
  eexists. split; [exact Hhandle |]. split; [reflexivity |].
  intros w timeout Hw Hq.
  rewrite (recv_message_ready timeout w (WAMP_CODE c) rest [] name).
  - split; reflexivity.
  - unfold the_session. rewrite Hw. cbn. rewrite Hq. reflexivity.
  - exact Hn.
Qed.

Lemma accepted_messages_reach_general_queue_witness :
  let h := heap (Sample.world None []) in
  let m := [PInt 50; PInt 1; PDict []; PList [PStr "2016-01-01"]] in
  exists h'',
    handle_message (H := Sample.externals) m h = (Ok tt, h'')
    /\ _message_queue (sess h'') = [m]
    /\ forall (w : World) (timeout : nat),
        heap w = h'' ->
        _message_queue (sess h) = [] ->
        fst (recv_message timeout w) = Ok m
        /\ _message_queue (the_session (snd (recv_message timeout w))) = [].
Proof.
  intros h m.
  refine (accepted_messages_reach_general_queue (H := Sample.externals) h
            Result [PInt 1; PDict []; PList [PStr "2016-01-01"]] eq_refl _).
  set_solver.
Defined.

(** C10: a CHALLENGE of two elements has the code of an accepted class, but
    the class refuses it: handling it fails and the message is not put on
    the queue. *)
Lemma refused_message_is_not_queued :
  let h := heap (Sample.world None []) in
  let m := [PInt 4; PStr "ticket"] in
  raised_class (fst (handle_message (H := Sample.externals) m h))
  = Some TypeError
  /\ _message_queue (sess (snd (handle_message (H := Sample.externals) m h)))
     = [].
Proof. vm_compute. split; reflexivity. Qed.

(** ** The dispatcher *)

(** C7 (as amended).  When a socket read raises, [read_websocket_frame]
    fails with [ConnectionError]; when the peer has closed the socket (the
    read returns no bytes) it fails with [WampProtocolError]; on either the
    dispatcher loop stops, whatever it had received so far. *)
Theorem connection_loss_stops_dispatcher `{Externals} (received_bytes : string)
  (e : exn) (reads : list recv_result) (h : Heap ClientState) (fuel : nat) :
  is_Exception (exn_cls e) = true \/ exn_cls e = GreenletExit ->
  (exists e',
      read_websocket_frame_from received_bytes (RecvRaises e :: reads)
      = (ReadRaised e', reads)
      /\ exn_cls e' = ConnectionError)
  /\ read_websocket_frame_from received_bytes (RecvData "" :: reads)
     = (ReadRaised (Exn WampProtocolError "No frame returned" []), reads)
  /\ connection_handler_from (S fuel) received_bytes (RecvRaises e :: reads) h
     = (Stopped, h)
  /\ connection_handler_from (S fuel) received_bytes (RecvData "" :: reads) h
     = (Stopped, h).
Proof.
  intros He.
  assert (Hread : exists e',
      read_websocket_frame_from received_bytes (RecvRaises e :: reads)
      = (ReadRaised e', reads)
      /\ exn_cls e' = ConnectionError).
  { cbn [read_websocket_frame_from].
    repeat case_bool_decide; try (eexists; split; reflexivity).
    destruct He as [He | He]; [| congruence].
    rewrite He. eexists; split; reflexivity. }
  split; [exact Hread |].
  split; [reflexivity |].
  split.
  - destruct Hread as (e' & Hr & Hc).
    cbn [connection_handler_from]. rewrite Hr.
    unfold leave_loop, breaks_loop, caught_by. rewrite Hc.
    reflexivity.
  - reflexivity.
Qed.

Lemma connection_loss_stops_dispatcher_witness :
  let h := heap (Sample.world None []) in
  (exists e',
      read_websocket_frame_from (H := Sample.externals) "2,7"
        [RecvRaises (Exn SocketError "Connection reset by peer" [])]
      = (ReadRaised e', [])
      /\ exn_cls e' = ConnectionError)
  /\ connection_handler_from (H := Sample.externals) 1 "2,7"
       [RecvRaises (Exn SocketError "Connection reset by peer" [])] h
     = (Stopped, h).
Proof.
  intros h.
  destruct (connection_loss_stops_dispatcher (H := Sample.externals) "2,7"
              (Exn SocketError "Connection reset by peer" []) [] h 0)
    as (H1 & _ & H3 & _).
  - left. reflexivity.
  - split; [exact H1 | exact H3].
Defined.

(** C7: when the peer closes the socket, [read_websocket_frame] fails with
    [WampProtocolError], not with [ConnectionError]. *)
Lemma peer_close_is_not_connection_error :
  exists e,
    fst (read_websocket_frame (H := Sample.externals) [RecvData ""])
    = ReadRaised e
    /\ exn_cls e = WampProtocolError
    /\ exn_cls e <> ConnectionError.
Proof.
  eexists. split; [reflexivity |]. split; [reflexivity | discriminate].
Qed.

(** ** The session *)

Section SessionFacts.
Context `{Externals}.

Lemma message_type_known (c : message_class) :
  is_Some (MESSAGE_TYPE_MAP !! WAMP_CODE c).
Proof. destruct c; eexists; vm_compute; reflexivity. Qed.

Lemma send_message_connected (message : MessageObj) (sk : Socket) (w : World) :
  _connection (the_session w) = Some TheTransport ->
  socket (transport (heap w)) = Some sk ->
  default None (head (send_faults w)) = None ->
  send_message message w = (Ok tt, after_send message sk w).
Proof.
  intros Hc Hs Hf. unfold send_message. run.
  destruct (message_type_known (obj_class message)) as [name Hn].
  unfold getitem. cbn [find_key]. rewrite Hn, Hc, Hf.
  unfold send_websocket_frame, socket_send. rewrite Hs. reflexivity.
Qed.

Lemma send_message_disconnected (message : MessageObj) (w : World) :
  _connection (the_session w) = None ->
  exists e,
    send_message message w = (Raise e, w) /\ exn_cls e = AttributeError.
Proof.
  intros Hc. unfold send_message. run.
  destruct (message_type_known (obj_class message)) as [name Hn].
  unfold getitem. cbn [find_key]. rewrite Hn, Hc.
  eexists. split; reflexivity.
Qed.

(** [send_message] leaves the session object and the clock as they are. *)
Lemma send_message_frame (message : MessageObj) (w : World) :
  the_session (snd (send_message message w)) = the_session w
  /\ clock (snd (send_message message w)) = clock w.
Proof.
  unfold send_message. run.
  destruct (message_type_known (obj_class message)) as [name Hn].
  unfold getitem. cbn [find_key]. rewrite Hn.
  destruct (_connection (the_session w)) as [[] |]; [| split; reflexivity].
  destruct (send_websocket_frame _ _ _). split; reflexivity.
Qed.

(** The dispatcher's turn leaves a spawned thread spawned. *)
Lemma run_dispatcher_thread (burst : list recv_result) (h : Heap ClientState) :
  is_Some (_managed_thread (sess h)) ->
  is_Some (_managed_thread (sess (run_dispatcher burst h))).
Proof.
  intros Ht. unfold run_dispatcher.
  destruct (_managed_thread (sess h)) as [[buf | | e] |] eqn:E;
    try (rewrite E; exact Ht).
  destruct (connection_handler_from _ _ _ _). cbn. eauto.
Qed.

(** The wait ends within the time left on its timer, and leaves a spawned
    thread spawned. *)
Lemma wait_for_queue_spec (wi : list (nat * list recv_result)) :
  forall (remaining cl : nat) (h : Heap ClientState) r h' cl' wi',
    wait_for_queue remaining wi cl h = (r, (h', cl', wi')) ->
    (cl <= cl' <= cl + remaining)%nat
    /\ (is_Some (_managed_thread (sess h)) ->
        is_Some (_managed_thread (sess h')))
    /\ (forall e, r = Raise e -> e = Exn EventletTimeout "" [])
    /\ (r = Ok tt -> _message_queue (sess h') <> []).
Proof.
  induction wi as [| [d b] wi IH]; intros remaining cl h r h' cl' wi' Hw;
    cbn [wait_for_queue] in Hw;
    destruct (_message_queue (sess h)) eqn:Hq;
    try destruct (d <? remaining)%nat eqn:Hd;
    try (inversion Hw; subst;
         repeat split; try lia; auto; try congruence;
         try (intros e0 He0; congruence);
         try (rewrite Hq; discriminate); fail).
  apply Nat.ltb_lt in Hd. apply IH in Hw as (Hc & Ht & He & Ho).
  repeat split; try lia; auto.
  intros Hs. apply Ht. apply run_dispatcher_thread. exact Hs.
Qed.

(** [_wait_for_message] returns within its timeout, fails only by its
    timer, and leaves a spawned thread spawned. *)
Lemma wait_for_message_spec (timeout : nat) (w : World) :
  (clock w <= clock (snd (_wait_for_message timeout w))
   <= clock w + 1000 * timeout)%nat
  /\ (is_Some (_managed_thread (the_session w)) ->
      is_Some (_managed_thread
                 (the_session (snd (_wait_for_message timeout w)))))
  /\ (forall e, fst (_wait_for_message timeout w) = Raise e ->
                e = Exn EventletTimeout "" []).
Proof.
  unfold _wait_for_message, the_session.
  destruct (wait_for_queue (1000 * timeout) (wire w) (clock w) (heap w))
    as [r [[h' cl'] wi']] eqn:E.
  apply wait_for_queue_spec in E as (Hc & Ht & He & Ho).
  destruct r as [[] | e].
  - destruct (_message_queue (sess h')) eqn:Hq;
      [destruct (Ho eq_refl eq_refl) |].
    cbn. repeat split; try lia; auto. intros e He'. discriminate.
  - cbn. repeat split; try lia; auto. intros e' He'. apply He. congruence.
Qed.

(** [recv_message] returns within its timeout and leaves a spawned thread
    spawned. *)
Lemma recv_message_spec (timeout : nat) (w : World) :
  (clock w <= clock (snd (recv_message timeout w))
   <= clock w + 1000 * timeout)%nat
  /\ (is_Some (_managed_thread (the_session w)) ->
      is_Some (_managed_thread
                 (the_session (snd (recv_message timeout w))))).
Proof.
  destruct (wait_for_message_spec timeout w) as (Hc & Ht & He).
  unfold recv_message. run.
  destruct (_wait_for_message timeout w) as [[m | e] w1]; cbn [fst snd] in *.
  - destruct (item m 0); [| split; auto].
    destruct (getitem MESSAGE_TYPE_MAP a); split; auto.
  - destruct (caught_by [EventletTimeout] e); split; auto.
Qed.


End SessionFacts.


Section QueueInvariant.
Context `{Externals}.
Hypothesis Hprocess : process_keeps_queue_known.

Lemma handle_message_queue_known (m : message) (h h1 : Heap ClientState)
  (r : res unit) :
  handle_message m h = (r, h1) -> queue_known h -> queue_known h1.
Proof.
  unfold handle_message. run. intros Hm Hq.
  destruct (item m 0) as [v | e] eqn:Hv; [| congruence].
  destruct (find_key (messages (message_handler (sess h))) v)
    as [[c |] | e] eqn:Hf; try congruence.
  - destruct (getitem MESSAGE_TYPE_MAP v) as [name | e] eqn:Hn;
      [| congruence].
    destruct (construct c m) as [obj | e]; [| congruence].
    destruct (process obj m h) as [[[] | e] h'] eqn:Hp.
    + inversion Hm; subst. pose proof (Hprocess _ _ _ _ _ Hp Hq) as Hq1.
      unfold queue_known in *. cbn.
      rewrite forallb_app, Hq1. cbn [andb].
      destruct m as [| v' rest]; [discriminate |].
      cbn [item subscript nth_error] in Hv. inversion Hv; subst v'.
      destruct v; try discriminate.
      unfold getitem, find_key in Hn.
      destruct (MESSAGE_TYPE_MAP !! z) eqn:Hz; [| discriminate].
      cbn [forallb known_message]. rewrite andb_true_r.
      apply bool_decide_eq_true. rewrite Hz. eauto.
    + inversion Hm; subst. eapply Hprocess; eauto.
  - destruct (getitem MESSAGE_TYPE_MAP v); inversion Hm; subst; exact Hq.
Qed.

Lemma connection_handler_queue_known (fuel : nat) :
  forall (buf : string) (reads : list recv_result) (h h1 : Heap ClientState)
    (t : GreenThread),
    connection_handler_from fuel buf reads h = (t, h1) ->
    queue_known h -> queue_known h1.
Proof.
  induction fuel as [| fuel IH]; intros buf reads h h1 t Hc Hq;
    cbn [connection_handler_from] in Hc.
  - inversion Hc; subst; exact Hq.
  - destruct (read_websocket_frame_from buf reads) as [[f | e | b] rest].
    + destruct (frame_truthy f).
      * destruct (handle_message (payload f) h) as [[[] | e] h'] eqn:Hh.
        -- eapply IH; eauto. eapply handle_message_queue_known; eauto.
        -- inversion Hc; subst. eapply handle_message_queue_known; eauto.
      * eapply IH; eauto.
    + inversion Hc; subst; exact Hq.
    + inversion Hc; subst; exact Hq.
Qed.

Lemma run_dispatcher_queue_known (burst : list recv_result)
  (h : Heap ClientState) :
  queue_known h -> queue_known (run_dispatcher burst h).
Proof.
  intros Hq. unfold run_dispatcher.
  destruct (_managed_thread (sess h)) as [[buf | | e] |]; auto.
  destruct (connection_handler_from _ _ _ _) as [t h1] eqn:Hc.
  apply connection_handler_queue_known in Hc; auto.
Qed.

Lemma wait_for_queue_known (wi : list (nat * list recv_result)) :
  forall (remaining cl : nat) (h : Heap ClientState) r h' cl' wi',
    wait_for_queue remaining wi cl h = (r, (h', cl', wi')) ->
    queue_known h -> queue_known h'.
Proof.
  induction wi as [| [d b] wi IH]; intros remaining cl h r h' cl' wi' Hw Hq;
    cbn [wait_for_queue] in Hw;
    destruct (_message_queue (sess h)) eqn:Hqu;
    try destruct (d <? remaining)%nat eqn:Hd;
    try (inversion Hw; subst; exact Hq).
  eapply IH; eauto. apply run_dispatcher_queue_known. exact Hq.
Qed.

(** While the queue holds only messages that [MESSAGE_TYPE_MAP] names,
    [recv_message] returns a message or fails with [WampProtocolError], and
    the queue stays so. *)
Lemma recv_message_known (timeout : nat) (w : World) :
  queue_known (heap w) ->
  queue_known (heap (snd (recv_message timeout w)))
  /\ match fst (recv_message timeout w) with
     | Ok m => exists v, item m 0 = Ok v
     | Raise e => exn_cls e = WampProtocolError
     end.
Proof.
  intros Hq. unfold recv_message, _wait_for_message. run.
  destruct (wait_for_queue (1000 * timeout) (wire w) (clock w) (heap w))
    as [r [[h' cl'] wi']] eqn:E.
  pose proof (wait_for_queue_known _ _ _ _ _ _ _ _ E Hq) as Hq'.
  apply wait_for_queue_spec in E as (_ & _ & He & Ho).
  destruct r as [[] | e].
  - destruct (_message_queue (sess h')) as [| m q] eqn:Hm;
      [destruct (Ho eq_refl eq_refl) |].
    unfold queue_known in Hq'. rewrite Hm in Hq'. cbn [forallb] in Hq'.
    apply andb_true_iff in Hq' as [Hk Hq'].
    destruct m as [| [| code | | |] rest]; try discriminate.
    cbn [known_message] in Hk. apply bool_decide_eq_true in Hk as [name Hn].
    unfold getitem. cbn [item subscript nth_error find_key].
    rewrite Hn. cbn [fst snd]. split; [exact Hq' | eauto].
  - rewrite (He e eq_refl). cbn. split; [exact Hq' | reflexivity].
Qed.

End QueueInvariant.

Section EndFacts.
Context `{Externals}.

Lemma send_message_raises (message : MessageObj) (w w1 : World) (e : exn) :
  faults_are_exceptions w = true ->
  send_message message w = (Raise e, w1) ->
  is_Exception (exn_cls e) = true.
Proof.
  unfold faults_are_exceptions, send_message. run. intros Hf.
  destruct (message_type_known (obj_class message)) as [name Hn].
  unfold getitem. cbn [find_key]. rewrite Hn.
  destruct (_connection (the_session w)) as [[] |].
  - unfold send_websocket_frame, socket_send.
    destruct (socket (transport (heap w))).
    + destruct (head (send_faults w)) as [[e' |] |]; cbn [default];
        intros Hs; inversion Hs; subst; auto.
    + intros Hs; inversion Hs; reflexivity.
  - intros Hs; inversion Hs; reflexivity.
Qed.

(** Under the conditions of a running session [_say_goodbye] returns
    normally, whatever the network does. *)
Lemma say_goodbye_returns (w : World) :
  process_keeps_queue_known ->
  queue_known (heap w) ->
  faults_are_exceptions w = true ->
  fst (_say_goodbye w) = Ok tt.
Proof.
  intros Hp Hq Hf. unfold _say_goodbye.
  destruct (send_message_frame (Goodbye_init 6) w) as [Hsess _].
  destruct (send_message (Goodbye_init 6) w) as [[[] | e] w1] eqn:Hs.
  - run. cbn [snd] in Hsess.
    assert (Hq1 : queue_known (heap w1)).
    { unfold queue_known. change (sess (heap w1)) with (the_session w1).
      rewrite Hsess. exact Hq. }
    destruct (recv_message_known Hp 2 w1 Hq1) as [_ Hr].
    destruct (recv_message 2 w1) as [[m | e] w2]; cbn [fst snd] in *.
    + destruct Hr as [v Hv]. rewrite Hv.
      destruct (negb (eq_int v Message.GOODBYE)); reflexivity.
    + unfold caught_by. rewrite Hr. reflexivity.
  - rewrite (send_message_raises _ _ _ _ Hf Hs). reflexivity.
Qed.

Lemma say_goodbye_thread (w : World) :
  is_Some (_managed_thread (the_session w)) ->
  is_Some (_managed_thread (the_session (snd (_say_goodbye w)))).
Proof.
  intros Ht. unfold _say_goodbye.
  destruct (send_message_frame (Goodbye_init 6) w) as [Hsess _].
  destruct (send_message (Goodbye_init 6) w) as [[[] | e] w1] eqn:Hs;
    cbn [snd] in Hsess.
  - run. rewrite <- Hsess in Ht.
    destruct (recv_message_spec 2 w1) as [_ Hr]. specialize (Hr Ht).
    destruct (recv_message 2 w1) as [[m | e] w2]; cbn [fst snd] in *.
    + destruct (item m 0) as [v | e].
      * destruct (negb (eq_int v Message.GOODBYE)); unfold caught_by;
          cbn [exn_cls]; try case_bool_decide; exact Hr.
      * destruct (caught_by [WampProtocolError] e); exact Hr.
    + destruct (caught_by [WampProtocolError] e); exact Hr.
  - rewrite <- Hsess in Ht.
    destruct (is_Exception (exn_cls e)); exact Ht.
Qed.

Lemma kill_kill (t : GreenThread) : kill (kill t) = kill t.
Proof. destruct t; reflexivity. Qed.

End EndFacts.

(** C4 (as amended).  On a session whose dispatcher has been spawned, whose
    queue holds only messages with a known code and keeps doing so while
    inbound messages are processed, and on which sending the GOODBYE
    succeeds or fails with an [Exception], [end()] returns normally and
    afterwards the dispatcher thread is dead, [_connection] is unset,
    [subscription_map] and [registration_map] are empty and [session_id] is
    unset; [end()] leaves the transport and its socket as the GOODBYE
    exchange left them (it does not close the socket); and a second [end()]
    succeeds and changes nothing.  When sending the GOODBYE fails with an
    exception that is not an [Exception], it escapes [_say_goodbye]:
    [end()] fails with it and resets nothing. *)
Theorem end_resets_session `{Externals} (w : World) (t : GreenThread) :
  process_keeps_queue_known ->
  queue_known (heap w) ->
  faults_are_exceptions w = true ->
  _managed_thread (the_session w) = Some t ->
  let w' := snd (end_ w) in
  fst (end_ w) = Ok tt
  /\ (exists t', _managed_thread (the_session w') = Some t'
                 /\ forall received_bytes, t' <> Suspended received_bytes)
  /\ _connection (the_session w') = None
  /\ subscription_map (the_session w') = ∅
  /\ registration_map (the_session w') = ∅
  /\ session_id (the_session w') = PNone
  /\ transport (heap w') = transport (heap (snd (_say_goodbye w)))
  /\ end_ w' = (Ok tt, w')
  /\ forall (w0 : World) (sk : Socket) (e : exn)
        (faults : list (option exn)),
      _connection (the_session w0) = Some TheTransport ->
      socket (transport (heap w0)) = Some sk ->
      send_faults w0 = Some e :: faults ->
      is_Exception (exn_cls e) = false ->
      fst (end_ w0) = Raise e
      /\ the_session (snd (end_ w0)) = the_session w0.
Proof.
  intros Hp Hq Hf Ht w'.
  pose proof (say_goodbye_returns w Hp Hq Hf) as Hg.
  assert (Hth : is_Some (_managed_thread (the_session (snd (_say_goodbye w))))).
  { apply say_goodbye_thread. rewrite Ht. eauto. }
  destruct Hth as [t1 Ht1].
  assert (Hend : end_ w
    = (Ok tt,
       upd_heap (upd_sess (fun s =>
         set_session_id PNone (set_registration_map ∅ (set_subscription_map ∅
           (set_session_attr PNone (set_connection None
              (set_managed_thread (Some (kill t1)) s)))))))
         (snd (_say_goodbye w)))).
  { unfold end_, _disconnet. run.
    destruct (_say_goodbye w) as [r wg]. cbn [fst snd] in *. subst r.
    rewrite Ht1. destruct wg as [[s tr cs] cl wi sf]. reflexivity. }
  subst w'. rewrite Hend. cbn [fst snd].
  split; [reflexivity |].
  split.
  { exists (kill t1). split; [reflexivity |].
    intros b. destruct t1; discriminate. }
  do 5 (split; [reflexivity |]).
  split.
  - clear Hend Hg. revert Ht1.
    generalize (snd (_say_goodbye w)). intros wg Ht1.
    set (w2 := upd_heap _ wg).
    destruct (send_message_disconnected (Goodbye_init 6) w2 eq_refl)
      as (e & Hs & He).
    unfold end_, _disconnet. run. unfold _say_goodbye. cbv beta zeta.
    rewrite Hs, He. cbn [is_Exception].
    subst w2. destruct wg as [[s tr cs] cl wi sf].
    cbn. rewrite kill_kill. reflexivity.
  - intros w0 sk e faults Hc0 Hs0 Hf0 Hnot.
    destruct (send_message_frame (Goodbye_init 6) w0) as [Hsess _].
    assert (Hfst : fst (send_message (Goodbye_init 6) w0) = Raise e).
    { unfold send_message, bind, lift_res.
      destruct (message_type_known (obj_class (Goodbye_init 6)))
        as [name Hname].
      unfold getitem. cbn [find_key]. rewrite Hname, Hc0, Hf0.
      unfold send_websocket_frame. rewrite Hs0. reflexivity. }
    destruct (send_message (Goodbye_init 6) w0) as [r w1] eqn:Hsend.
    cbn [fst snd] in Hsess, Hfst. subst r.
    unfold end_. run. unfold _say_goodbye. cbv beta zeta.
    rewrite Hsend, Hnot. split; [reflexivity | exact Hsess].
Qed.

Lemma sample_process_keeps_queue_known :
  process_keeps_queue_known (H := Sample.externals).
Proof.
  intros obj m h r h' Hp Hq. cbn in Hp. inversion Hp; subst. exact Hq.
Qed.

Lemma end_resets_session_witness :
  let w := Sample.world None [(300%nat, Sample.reads_of "6,x,y;")] in
  let w' := snd (end_ (H := Sample.externals) w) in
  fst (end_ (H := Sample.externals) w) = Ok tt
  /\ _connection (the_session w') = None
  /\ session_id (the_session w') = PNone
  /\ end_ (H := Sample.externals) w' = (Ok tt, w').
Proof.
  intros w w'.
  destruct (end_resets_session (H := Sample.externals) w (Suspended "")
              sample_process_keeps_queue_known eq_refl eq_refl eq_refl)
    as (H1 & _ & H3 & _ & _ & H6 & _ & H8 & _).
  repeat split; assumption.
Defined.

(** C4: [end()] does not close the transport socket. *)
Lemma end_leaves_socket_open :
  let w := Sample.world None [] in
  fst (end_ (H := Sample.externals) w) = Ok tt
  /\ closed <$> socket (transport (heap (snd (end_ (H := Sample.externals) w))))
     = Some false.
Proof. vm_compute. split; reflexivity. Qed.



Section HelloFacts.
Context `{Externals}.

Lemma say_hello_on_terminal_response (w w' : World) (response : message)
  (code a b : pyval) :
  terminal_response w response w' ->
  response = [code; a; b] ->
  _say_hello w = hello_outcome response code a w'.
Proof.
  intros Ht Hr. unfold _say_hello, hello_outcome. run.
  destruct Ht as [w1 w2 c x y Hs Hrecv Hc
                 | w1 w2 w3 w4 c m x cb sg resp Hs Hrecv Hc Hcb Hsig Hs2 Hrecv2].
  - inversion Hr; subst. rewrite Hs, Hrecv. cbn [unpack3]. rewrite Hc.
    destruct (in_ints code _); reflexivity.
  - subst resp. rewrite Hs, Hrecv. cbn [unpack3]. rewrite Hc, Hcb, Hsig, Hs2, Hrecv2.
    cbn [unpack3].
    destruct (in_ints code _); reflexivity.
Qed.

End HelloFacts.

(** C1 (as amended).  When the terminal response of the [_say_hello]
    exchange is a WELCOME message, [_say_hello] sets [session_id] from it
    and returns it; when it is an ABORT message, [_say_hello] does not fail
    but returns the ABORT message to its caller; and for every other
    three-element message it fails with [WampError]. *)
Theorem say_hello_terminal_response `{Externals} (w w' : World)
  (response : message) (code a b : pyval) :
  terminal_response w response w' ->
  response = [code; a; b] ->
  (eq_int code Message.WELCOME = true ->
   _say_hello w = (Ok response, upd_heap (upd_sess (set_session_id a)) w')
   /\ session_id (the_session (snd (_say_hello w))) = a)
  /\ (eq_int code Message.ABORT = true -> fst (_say_hello w) = Ok response)
  /\ (in_ints code [Message.WELCOME; Message.ABORT] = false ->
      _say_hello w
      = (Raise (Exn WampError "unexpected response from HELLO message: {}"
                  [PList response]), w')).
Proof.
  intros Ht Hr.
  rewrite (say_hello_on_terminal_response w w' response code a b Ht Hr).
  unfold hello_outcome, in_ints. cbn [existsb].
  split; [| split].
  - intros Hc. rewrite Hc. cbn [orb]. split; reflexivity.
  - intros Hc. rewrite Hc, orb_true_r. reflexivity.
  - intros Hc. rewrite Hc. reflexivity.
Qed.

Lemma say_hello_terminal_response_witness :
  let w := Sample.world None [(10%nat, Sample.reads_of "2,77,x;")] in
  fst (_say_hello (H := Sample.externals) w) = Ok [PInt 2; PInt 77; PStr "x"]
  /\ session_id (the_session (snd (_say_hello (H := Sample.externals) w)))
     = PInt 77.
Proof.
  intros w.
  set (hello := Hello_init (realm (the_session w)) (roles (the_session w))).
  set (w1 := snd (send_message (H := Sample.externals) hello w)).
  set (w2 := snd (recv_message (H := Sample.externals) 5 w1)).
  assert (Ht : terminal_response (H := Sample.externals) w
                 [PInt 2; PInt 77; PStr "x"] w2).
  { apply (terminal_direct (H := Sample.externals) w w1 w2).
    - vm_compute. reflexivity.
    - vm_compute. reflexivity.
    - reflexivity. }
  destruct (say_hello_terminal_response (H := Sample.externals) w w2
              [PInt 2; PInt 77; PStr "x"] (PInt 2) (PInt 77) (PStr "x")
              Ht eq_refl) as (Hw & _ & _).
  destruct (Hw eq_refl) as [Heq Hid].
  split; [rewrite Heq; reflexivity | exact Hid].
Defined.

(** C1: an ABORT received in reply to HELLO does not make [_say_hello] fail
    with an error that carries the reason URI.  With the ABORT message on
    the general queue [_say_hello] returns normally; with the default
    handler, an ABORT sent by the router is refused by the dispatcher and
    [_say_hello] fails on the timeout of its wait, with no reason. *)
Lemma abort_does_not_raise_auth_error :
  let abort := [PInt 3; PDict []; PStr "wamp.error.no_such_realm"] in
  let w := Sample.world None [] in
  let queued := upd_heap (upd_sess (set_queue [abort])) w in
  let sent_by_router :=
    Sample.world None
      [(10%nat, Sample.reads_of "3,x,wamp.error.no_such_realm;")] in
  fst (_say_hello (H := Sample.externals) queued) = Ok abort
  /\ fst (_say_hello (H := Sample.externals) sent_by_router)
     = Raise (Exn WampProtocolError "no message returned" []).
Proof. vm_compute. split; reflexivity. Qed.

(** C2: the callback given as [onchallenge] is called with the HELLO message
    object, not with the method and the extra of the CHALLENGE.  Here the
    callback returns its argument as the signature, and the AUTHENTICATE
    message sent carries the HELLO message, whatever the CHALLENGE held. *)
Lemma challenge_callback_receives_hello :
  let echo := fun m : MessageObj => Ok (PList (obj_message m)) in
  let w :=
    Sample.world (Some echo)
      [(10%nat, Sample.reads_of "4,ticket,abc;");
       (20%nat, Sample.reads_of "2,5,y;")] in
  let hello := Hello_init "realm1" Sample.the_roles in
  let authenticate := Authenticate_init (PList (obj_message hello)) PNone in
  fst (_say_hello (H := Sample.externals) w) = Ok [PInt 2; PInt 5; PStr "y"]
  /\ obj_message authenticate
     = [PInt 5; PList (obj_message hello); PDict []]
  /\ sent <$> socket (transport (heap (snd (_say_hello (H := Sample.externals) w))))
     = Some [serialize (Externals := Sample.externals) hello;
             serialize (Externals := Sample.externals) authenticate].
Proof. vm_compute. repeat split; reflexivity. Qed.

(** ** The caller proxies *)

(** C3 (as amended).  Through [CallProxy] a RESULT reply gives element 0 of
    its args list (the fourth element of the message) and an ERROR reply is
    returned itself, as a value.  Through [RpcProxy] a RESULT reply gives
    the same, but no other reply is returned: a reply that is not a RESULT
    makes the call raise.  An ERROR reply that has its sixth element is
    raised as [WampProtocolError] with that element, a shorter ERROR reply
    fails with [IndexError], and any other reply fails with
    [WampProtocolError], [IndexError], [KeyError] or [TypeError]. *)
Theorem call_returns_result_or_error `{Externals} (request_id : Z)
  (procedure : string) (args : list pyval) (kwargs : list (string * pyval))
  (c c' : ClientState) (response : message) :
  send_message_and_wait_for_response
    (Call_init request_id procedure args kwargs) c = (Ok response, c') ->
  (forall request details result others fields,
      response
      = PInt Message.RESULT :: request :: details
          :: PList (result :: others) :: fields ->
      CallProxy_call request_id procedure args kwargs c = (Ok result, c')
      /\ RpcProxy_wrapper request_id procedure args kwargs c
         = (Ok result, c'))
  /\ (forall fields,
      response = PInt Message.ERROR :: fields ->
      CallProxy_call request_id procedure args kwargs c
      = (Ok (PList response), c')
      /\ RpcProxy_wrapper request_id procedure args kwargs c
         = (Raise
              match nth_error fields 4 with
              | Some detail =>
                  Exn WampProtocolError
                    ("unexpected message code: " +:+ dquote +:+ "%s (%s) %s"
                     +:+ dquote)
                    [PInt Message.ERROR; PStr "ERROR"; detail]
              | None => Exn IndexError "list index out of range" []
              end, c'))
  /\ ((forall fields, response <> PInt Message.RESULT :: fields) ->
      exists e,
        RpcProxy_wrapper request_id procedure args kwargs c = (Raise e, c')
        /\ exn_cls e ∈ [WampProtocolError; IndexError; KeyError; TypeError]).
Proof.
  intros Hs. split; [| split].
  - intros request details result others fields ->.
    unfold CallProxy_call, RpcProxy_wrapper. run. rewrite Hs.
    split; reflexivity.
  - intros fields ->.
    unfold CallProxy_call, RpcProxy_wrapper. run. rewrite Hs.
    split; [reflexivity |].
    assert (Hn : getitem MESSAGE_TYPE_MAP (PInt Message.ERROR) = Ok "ERROR")
      by (vm_compute; reflexivity).
    change (item (PInt Message.ERROR :: fields) 0)
      with (Ok (PInt Message.ERROR)).
    change (eq_int (PInt Message.ERROR) Message.RESULT) with false.
    cbn [negb]. rewrite Hn.
    unfold item, subscript.
    change (nth_error (PInt Message.ERROR :: fields) 5)
      with (nth_error fields 4).
    destruct (nth_error fields 4); reflexivity.
  - intros Hnot. unfold RpcProxy_wrapper. run. rewrite Hs.
    destruct response as [| code fields].
    { eexists. split; [reflexivity | cbn [exn_cls]; rewrite !elem_of_cons; auto 10]. }
    change (item (code :: fields) 0) with (Ok code). cbv beta iota.
    destruct (eq_int code Message.RESULT) eqn:Hcode.
    { destruct code as [| z | | |]; try discriminate.
      apply Z.eqb_eq in Hcode. subst z. destruct (Hnot fields eq_refl). }
    cbn [negb].
    assert (Hname : (exists name, getitem MESSAGE_TYPE_MAP code = Ok name)
                    \/ exists e, getitem MESSAGE_TYPE_MAP code = Raise e
                                 /\ exn_cls e ∈ [KeyError; TypeError]).
    { unfold getitem, find_key.
      destruct code as [| z | | |];
        [ right | | right | right | right ];
        try (eexists; split; [reflexivity | cbn [exn_cls]; rewrite !elem_of_cons; auto 10]).
      destruct (MESSAGE_TYPE_MAP !! z) as [name |]; [left; eauto | right].
      eexists. split; [reflexivity | cbn [exn_cls]; rewrite !elem_of_cons; auto 10]. }
    destruct Hname as [[name ->] | (e & -> & He)].
    + unfold item, subscript.
      destruct (nth_error (code :: fields) 5);
        (eexists; split;
         [reflexivity | cbn [exn_cls]; rewrite !elem_of_cons; auto 10]).
    + exists e. split; [reflexivity |].
      rewrite !elem_of_cons, elem_of_nil in *. intuition auto.
Qed.

Lemma call_returns_result_or_error_witness :
  CallProxy_call (H := Sample.externals) 1 "get_registration"
    [PStr "spam"] [] [Sample.no_such_registration]
  = (Ok (PList Sample.no_such_registration), []).
Proof.
  destruct (call_returns_result_or_error (H := Sample.externals) 1
              "get_registration" [PStr "spam"] [] [Sample.no_such_registration] []
              Sample.no_such_registration eq_refl) as (_ & He & _).
  destruct (He _ eq_refl) as [Hc _]. exact Hc.
Defined.

(** C3: through [RpcProxy] an ERROR reply is raised, not returned. *)
Lemma rpc_proxy_raises_on_error :
  fst (RpcProxy_wrapper (H := Sample.externals) 1 "get_registration"
         [PStr "spam"] [] [Sample.no_such_registration])
  = Raise (Exn WampProtocolError
             ("unexpected message code: " +:+ dquote +:+ "%s (%s) %s"
              +:+ dquote)
             [PInt 8; PStr "ERROR";
              PList [PStr "no registration with ID spam exists on this dealer"]]).
Proof. vm_compute. reflexivity. Qed.

(** ** The handshake request *)

Lemma chars_append (s1 s2 : string) :
  Str.chars (s1 +:+ s2) = Str.chars s1 ++ Str.chars s2.
Proof.
  unfold Str.chars. induction s1 as [| c s1 IH]; simpl; [reflexivity |].
  f_equal. exact IH.
Qed.

Lemma append_empty_r (s : string) : s +:+ "" = s.
Proof.
  induction s as [| c s IH]; [reflexivity |].
  change (String c (s +:+ "") = String c s). f_equal. exact IH.
Qed.

Lemma append_assoc (s1 s2 s3 : string) :
  (s1 +:+ s2) +:+ s3 = s1 +:+ (s2 +:+ s3).
Proof.
  induction s1 as [| c s1 IH]; [reflexivity |].
  change (String c ((s1 +:+ s2) +:+ s3) = String c (s1 +:+ (s2 +:+ s3))).
  f_equal. exact IH.
Qed.

Lemma chars_of_chars (l : list ascii) : Str.chars (Str.of_chars l) = l.
Proof. apply list_ascii_of_string_of_list_ascii. Qed.

Lemma of_chars_chars (s : string) : Str.of_chars (Str.chars s) = s.
Proof. apply string_of_list_ascii_of_string. Qed.

Lemma chars_length (s : string) : length (Str.chars s) = String.length s.
Proof.
  unfold Str.chars. induction s as [| c s IH]; simpl; [reflexivity |].
  f_equal. exact IH.
Qed.

Lemma b64_char_not_space (n : nat) : Str.is_space (b64_char n) = false.
Proof.
  unfold b64_char.
  do 64 (destruct n as [| n]; [reflexivity |]).
  reflexivity.
Qed.

Lemma b64_groups_not_space (n : nat) :
  forall l : list nat,
    (length l <= n)%nat ->
    Forall (fun c => Str.is_space c = false) (b64_groups l).
Proof.
  induction n as [| n IH]; intros l Hl.
  - destruct l; [constructor | cbn in Hl; lia].
  - destruct l as [| a [| b [| c rest]]]; cbn [b64_groups].
    + constructor.
    + repeat constructor; apply b64_char_not_space.
    + repeat constructor; apply b64_char_not_space.
    + repeat (constructor; [apply b64_char_not_space |]).
      apply IH. cbn in Hl. lia.
Qed.

Lemma lstrip_by_head (p : ascii -> bool) (l : list ascii) :
  Forall (fun c => p c = false) l -> Str.lstrip_by p l = l.
Proof.
  intros Hl. destruct Hl as [| c l Hc Hl]; cbn; [reflexivity |].
  rewrite Hc. reflexivity.
Qed.

(** Stripping removes the newline that [encodestring] appends, and nothing
    else, from text without white space. *)
Lemma strip_line (l : list ascii) :
  Forall (fun c => Str.is_space c = false) l ->
  Str.strip (Str.of_chars l +:+ NL) = Str.of_chars l.
Proof.
  intros Hl. unfold Str.strip, Str.rstrip_by.
  rewrite chars_append, chars_of_chars.
  change (Str.chars NL) with [LF].
  assert (Hleft : Str.lstrip_by Str.is_space (l ++ [LF])
                  = match l with [] => [] | _ => l ++ [LF] end).
  { destruct Hl as [| c l Hc Hl]; cbn; [reflexivity |].
    rewrite Hc. reflexivity. }
  rewrite Hleft. destruct l as [| c l]; [reflexivity |].
  rewrite rev_app_distr. cbn [rev app Str.lstrip_by].
  change (Str.is_space LF) with true. cbn [app].
  rewrite lstrip_by_head.
  - change (rev l ++ [c]) with (rev (c :: l)) at 1.
    rewrite rev_involutive. reflexivity.
  - apply Forall_rev in Hl. exact Hl.
Qed.

Lemma encodestring_one_line (s : string) :
  s <> "" ->
  (String.length s <= MAXBINSIZE)%nat ->
  encodestring s = b64encode s +:+ NL.
Proof.
  intros Hne Hlen. unfold encodestring, b64encode.
  rewrite <- chars_length in *.
  destruct (Str.chars s) as [| c l] eqn:Hc.
  - destruct s; [congruence | discriminate].
  - cbn [length encode_chunks].
    rewrite take_ge, drop_ge by exact Hlen.
    unfold b2a_base64.
    destruct (length l); cbn [encode_chunks];
      rewrite append_empty_r; reflexivity.
Qed.

Lemma of_chars_length (l : list ascii) :
  String.length (Str.of_chars l) = length l.
Proof. rewrite <- chars_length, chars_of_chars. reflexivity. Qed.

(** C9.  The handshake request of a WebSocket built with a 16-byte uuid is
    made of exactly these eight lines, in this order: GET /{location}
    HTTP/1.1, Host, Upgrade: websocket, Connection: Upgrade,
    Sec-WebSocket-Key with the base64 text (24 characters) of the 16 bytes,
    Origin: wss://{host}, Sec-WebSocket-Version: 13 and
    Sec-WebSocket-Protocol: wamp.2.json; each line ends with CRLF and a
    blank line ends the request; and this text is what connecting sends
    first. *)
Theorem handshake_request_is_exact (host : string) (port : Z)
  (location : string) (uuid_bytes : string) :
  String.length uuid_bytes = 16%nat ->
  let ws := WebSocket_init host port location uuid_bytes in
  let lines :=
    [ "GET /" +:+ Str.lstrip_char "/" location +:+ " HTTP/1.1";
      "Host: " +:+ host;
      "Upgrade: websocket";
      "Connection: Upgrade";
      "Sec-WebSocket-Key: " +:+ b64encode uuid_bytes;
      "Origin: wss://" +:+ host;
      "Sec-WebSocket-Version: 13";
      "Sec-WebSocket-Protocol: wamp.2.json" ] in
  String.length (b64encode uuid_bytes) = 24%nat
  /\ _get_handshake_headers ws = lines
  /\ handshake_request ws
     = String.concat "" (map (fun line => line +:+ CRLF) lines) +:+ CRLF
  /\ forall (recv_fault : option exn) (input : string),
      sent <$> socket (snd (fst (connect (Ok tt) None recv_fault ws input)))
      = Some [handshake_request ws].
Proof.
  intros Hlen ws lines.
  assert (Hkey : key ws = b64encode uuid_bytes).
  { unfold ws, WebSocket_init. cbn [key].
    rewrite encodestring_one_line.
    - unfold b64encode. apply strip_line.
      apply (b64_groups_not_space (length (map nat_of_ascii (Str.chars uuid_bytes)))).
      lia.
    - intros ->. discriminate.
    - rewrite Hlen. unfold MAXBINSIZE. lia. }
  assert (Hlines : _get_handshake_headers ws = lines).
  { unfold _get_handshake_headers. rewrite Hkey. reflexivity. }
  split; [| split; [exact Hlines | split]].
  - unfold b64encode. rewrite of_chars_length.
    rewrite <- chars_length in Hlen.
    destruct (Str.chars uuid_bytes) as [| c1 l]; [discriminate |].
    do 15 (destruct l as [| ? l]; [discriminate |]).
    destruct l; [reflexivity | discriminate].
  - unfold handshake_request. rewrite Hlines. unfold lines, Str.join.
    cbn [String.concat map].
    rewrite !append_assoc. reflexivity.
  - intros recv_fault input. unfold connect. cbn [_connect].
    unfold _upgrade. cbn [socket_send socket].
    destruct (_read_handshake_response recv_fault input)
      as [[[[st hd] | e] |] rest];
      reflexivity.
Qed.

Lemma handshake_request_is_exact_witness :
  handshake_request (WebSocket_init "localhost" 8080 "/ws" Sample.a_uuid)
  = "GET /ws HTTP/1.1" +:+ CRLF
    +:+ "Host: localhost" +:+ CRLF
    +:+ "Upgrade: websocket" +:+ CRLF
    +:+ "Connection: Upgrade" +:+ CRLF
    +:+ "Sec-WebSocket-Key: MDEyMzQ1Njc4OWFiY2RlZg==" +:+ CRLF
    +:+ "Origin: wss://localhost" +:+ CRLF
    +:+ "Sec-WebSocket-Version: 13" +:+ CRLF
    +:+ "Sec-WebSocket-Protocol: wamp.2.json" +:+ CRLF
    +:+ CRLF.
Proof.
  destruct (handshake_request_is_exact "localhost" 8080 "/ws" Sample.a_uuid
              eq_refl) as (_ & _ & Hreq & _).
  rewrite Hreq. vm_compute. reflexivity.
Defined.

(** ** The handshake response *)

(** A line read from the input is a prefix of it, which ends with a newline
    unless the input is exhausted; reading uses up at least one byte of an
    input that is not empty. *)
Lemma recv_line_spec (recv_fault : option exn) (input : string) :
  forall (received line rest : string),
    _recv_handshake_response_by_line recv_fault received input
    = (Ok line, rest) ->
    exists consumed,
      line = received +:+ consumed
      /\ input = consumed +:+ rest
      /\ (rest = "" \/ exists p, consumed = p +:+ NL)
      /\ (String.length rest <= String.length input)%nat
      /\ (input <> "" -> (String.length rest < String.length input)%nat).
Proof.
  induction input as [| b input IH]; intros received line rest Hr;
    cbn [_recv_handshake_response_by_line] in Hr.
  - destruct recv_fault; [discriminate |].
    inversion Hr; subst. exists "". rewrite append_empty_r.
    split; [reflexivity |]. split; [reflexivity |].
    split; [left; reflexivity |]. split; [lia | congruence].
  - destruct (Ascii.eqb b LF) eqn:Hb.
    + apply Ascii.eqb_eq in Hb. subst b. inversion Hr; subst.
      exists NL.
      split; [reflexivity |]. split; [reflexivity |].
      split; [right; exists ""; reflexivity |].
      cbn [String.length]. split; [lia | intros _; lia].
    + apply IH in Hr as (consumed & Hl & Hi & He & Hlen & _).
      exists (String b consumed). rewrite append_assoc in Hl.
      split; [exact Hl |].
      split; [rewrite Hi at 1; reflexivity |].
      split.
      * destruct He as [He | [p Hp]]; [left; exact He |].
        right. exists (String b p). rewrite Hp. reflexivity.
      * cbn [String.length]. split; [lia | intros _; lia].
Qed.


(** The loop does not depend on its fuel, once there is more of it than
    bytes of input. *)
Lemma read_handshake_loop_fuel (recv_fault : option exn) (n : nat) :
  forall (m : nat) (st : option Z) (hd : gmap string pyval) (input : string),
    (String.length input < n)%nat ->
    (String.length input < m)%nat ->
    read_handshake_loop n recv_fault st hd input
    = read_handshake_loop m recv_fault st hd input.
Proof.
  induction n as [| n IH]; intros m st hd input Hn Hm; [lia |].
  destruct m as [| m]; [lia |].
  cbn [read_handshake_loop].
  destruct (_recv_handshake_response_by_line recv_fault "" input)
    as [[line | e] rest] eqn:Hr; [| reflexivity].
  apply recv_line_spec in Hr as (consumed & Hl & Hi & He & Hle & Hlt).
  assert (Hrec : forall st' hd',
             input <> "" ->
             read_handshake_loop n recv_fault st' hd' rest
             = read_handshake_loop m recv_fault st' hd' rest).
  { intros st' hd' Hne. specialize (Hlt Hne). apply IH; lia. }
  assert (Hne : String.eqb (Str.strip line) "" = false -> input <> "").
  { intros Hs ->. destruct consumed; [| discriminate].
    cbn in Hl. subst line. discriminate. }
  destruct (String.eqb line CRLF || String.eqb line NL); [reflexivity |].
  destruct (String.eqb (Str.strip line) "") eqn:Hs.
  - destruct input; [reflexivity |]. apply Hrec. discriminate.
  - specialize (Hne eq_refl).
    destruct (status_unset st).
    + destruct (nth_error _ 1); [| reflexivity].
      destruct (Str.int s); [| reflexivity]. apply Hrec. exact Hne.
    + destruct (Str.split ":" 1 (Str.strip line)) as [| k [| v [| ? ?]]];
        try reflexivity.
      apply Hrec. exact Hne.
Qed.



(** *** Decimal numbers *)











(** *** The status line *)









(** ** Further facts about the lifecycle *)

(** On a session that was never begun there is no dispatcher thread to kill:
    [end()] fails in [_disconnet] and resets nothing. *)
Lemma end_before_begin_fails :
  raised_class (fst (end_ (H := Sample.externals) Sample.fresh_world))
  = Some AttributeError.
Proof. vm_compute. reflexivity. Qed.

(** A CHALLENGE received by a session that was given no [onchallenge] makes
    [_say_hello] fail with [WampError]. *)
Lemma say_hello_challenge_without_callback `{Externals} (w w1 w2 : World)
  (code method extra : pyval) :
  send_message (Hello_init (realm (the_session w)) (roles (the_session w))) w
  = (Ok tt, w1) ->
  recv_message 5 w1 = (Ok [code; method; extra], w2) ->
  eq_int code Message.CHALLENGE = true ->
  onchallenge (the_session w2) = None ->
  _say_hello w
  = (Raise (Exn WampError
              "Unable to respond to challenge as onchallenge has not been defined"
              []), w2).
Proof.
  intros Hs Hr Hc Ho. unfold _say_hello. run.
  rewrite Hs, Hr. cbn [unpack3]. rewrite Hc, Ho. reflexivity.
Qed.

(** ** The model of the dispatcher *)

Section DispatcherFacts.
Context `{Externals}.

(** Reading a frame uses up at least one read. *)
Lemma read_websocket_frame_consumes (reads : list recv_result) :
  forall (received_bytes : string) (frame : Frame) (rest : list recv_result),
    read_websocket_frame_from received_bytes reads = (FrameRead frame, rest) ->
    (length rest < length reads)%nat.
Proof.
  induction reads as [| r reads IH]; intros received_bytes frame rest Hr;
    cbn [read_websocket_frame_from] in Hr; [discriminate |].
  destruct r as [bytes | e].
  - destruct (String.eqb bytes ""); [discriminate |].
    destruct (ServerFrame (received_bytes +:+ bytes)) as [f | e].
    + inversion Hr; subst. cbn [length]. lia.
    + case_bool_decide; [| discriminate].
      apply IH in Hr. cbn [length]. lia.
  - repeat case_bool_decide; try discriminate.
    destruct (is_Exception (exn_cls e)); discriminate.
Qed.

(** The loop of [connection_handler] does not depend on its fuel, once there
    is more of it than reads. *)
Lemma connection_handler_fuel (n : nat) :
  forall (m : nat) (received_bytes : string) (reads : list recv_result)
    (h : Heap ClientState),
    (length reads < n)%nat ->
    (length reads < m)%nat ->
    connection_handler_from n received_bytes reads h
    = connection_handler_from m received_bytes reads h.
Proof.
  induction n as [| n IH]; intros m received_bytes reads h Hn Hm; [lia |].
  destruct m as [| m]; [lia |].
  cbn [connection_handler_from].
  destruct (read_websocket_frame_from received_bytes reads)
    as [[frame | e | b] rest] eqn:Hr; try reflexivity.
  apply read_websocket_frame_consumes in Hr.
  destruct (frame_truthy frame).
  - destruct (handle_message (payload frame) h) as [[[] | e] h'];
      [apply IH; lia | reflexivity].
  - apply IH; lia.
Qed.

(** Killing the suspended dispatcher is what [GreenletExit], raised in its
    [recv], does to it. *)
Lemma kill_is_greenlet_exit (fuel : nat) (received_bytes : string)
  (h : Heap ClientState) :
  connection_handler_from (S fuel) received_bytes
    [RecvRaises (Exn GreenletExit "" [])] h
  = (kill (Suspended received_bytes), h).
Proof. reflexivity. Qed.

End DispatcherFacts.

(** * Further properties of the code *)

(** ** Message classes and the handler's table *)

Lemma WAMP_CODE_inj (c c' : message_class) :
  WAMP_CODE c = WAMP_CODE c' -> c = c'.
Proof. destruct c, c'; cbn; intros Hc; try reflexivity; discriminate. Qed.

Lemma configure_fold (l : list message_class) :
  forall (acc : gmap Z message_class) (code : Z) (c : message_class),
    foldl (fun messages c => <[WAMP_CODE c := c]> messages) acc l !! code
    = Some c
    <-> (c ∈ l /\ code = WAMP_CODE c)
        \/ (acc !! code = Some c /\ forall c', c' ∈ l -> WAMP_CODE c' <> code).
Proof.
  induction l as [| x l IH]; intros acc code c; cbn [foldl].
  - split.
    + intros Hl. right. split; [exact Hl |]. intros c' Hc'.
      apply elem_of_nil in Hc'. destruct Hc'.
    + intros [[Hc _] | [Hl _]]; [apply elem_of_nil in Hc; destruct Hc | exact Hl].
  - rewrite IH. split.
    + intros [[Hc ->] | [Hl Hn]].
      * left. split; [apply elem_of_cons; right; exact Hc | reflexivity].
      * destruct (decide (WAMP_CODE x = code)) as [<- | Hx].
        -- rewrite lookup_insert_eq in Hl. inversion Hl; subst.
           left. split; [apply elem_of_cons; left; reflexivity | reflexivity].
        -- rewrite lookup_insert_ne in Hl by exact Hx.
           right. split; [exact Hl |]. intros c' Hc'.
           apply elem_of_cons in Hc' as [-> | Hc']; [exact Hx | apply Hn, Hc'].
    + intros [[Hc ->] | [Hl Hn]].
      * apply elem_of_cons in Hc as [-> | Hc].
        -- destruct (decide (x ∈ l)) as [Hin | Hin].
           ++ left. split; [exact Hin | reflexivity].
           ++ right. split; [apply lookup_insert_eq |].
              intros c' Hc' Heq. apply WAMP_CODE_inj in Heq. subst c'.
              exact (Hin Hc').
        -- left. split; [exact Hc | reflexivity].
      * right. split.
        -- rewrite lookup_insert_ne; [exact Hl |].
           apply Hn. apply elem_of_cons. left. reflexivity.
        -- intros c' Hc'. apply Hn. apply elem_of_cons. right. exact Hc'.
Qed.

(** X1.  The table [_configure_messages] builds maps a code to a class
    exactly when that class is among the classes to handle and the code is
    its [WAMP_CODE]. *)
Theorem configured_classes (to_handle : list message_class) (code : Z)
  (c : message_class) :
  _configure_messages to_handle !! code = Some c
  <-> c ∈ to_handle /\ code = WAMP_CODE c.
Proof.
  unfold _configure_messages. rewrite configure_fold. split.
  - intros [Hc | [Hl _]]; [exact Hc |].
    rewrite lookup_empty in Hl. discriminate.
  - intros Hc. left. exact Hc.
Qed.

Section HandlerOutcomes.
Context `{Externals}.

(** X2.  A message whose code is neither configured in the handler nor
    named by [MESSAGE_TYPE_MAP] is refused with [KeyError] (raised while the
    [WampyError] is being built), and the queue is left as it was. *)
Theorem handle_message_unnamed_code (h : Heap ClientState) (code : Z)
  (rest : list pyval) :
  messages (message_handler (sess h)) !! code = None ->
  MESSAGE_TYPE_MAP !! code = None ->
  handle_message (PInt code :: rest) h
  = (Raise (Exn KeyError "" [PInt code]), h).
Proof.
  intros Hm Hn. unfold handle_message.
  unfold bind, lift_res, gets.
  cbn [item subscript nth_error find_key].
  rewrite Hm. unfold getitem. cbn [find_key]. rewrite Hn. reflexivity.
Qed.

(** X3.  Whatever the message, [handle_message] puts it on the queue only
    when the handler is configured for its code, [MESSAGE_TYPE_MAP] names
    the code, and its object has been constructed and processed without
    error; when it fails, the state is as it was or as the failed
    processing left it. *)
Theorem handle_message_outcome (m : message) (h h' : Heap ClientState)
  (r : res unit) :
  handle_message m h = (r, h') ->
  match r with
  | Ok _ =>
      exists code rest c obj h1,
        m = PInt code :: rest
        /\ messages (message_handler (sess h)) !! code = Some c
        /\ is_Some (MESSAGE_TYPE_MAP !! code)
        /\ construct c m = Ok obj
        /\ process obj m h = (Ok tt, h1)
        /\ h' = upd_sess (fun s => set_queue (_message_queue s ++ [m]) s) h1
  | Raise e =>
      h' = h
      \/ exists c obj, construct c m = Ok obj /\ process obj m h = (Raise e, h')
  end.
Proof.
  unfold handle_message, bind, lift_res, gets, raise, queue_put, modify.
  intros Hm.
  destruct m as [| v rest]; cbn [item subscript nth_error] in Hm.
  { inversion Hm; subst. left. reflexivity. }
  destruct v as [| code | s | l | d]; cbn [find_key] in Hm;
    [ unfold getitem in Hm; cbn [find_key] in Hm;
      inversion Hm; subst; left; reflexivity
    |
    | unfold getitem in Hm; cbn [find_key] in Hm;
      inversion Hm; subst; left; reflexivity
    | inversion Hm; subst; left; reflexivity
    | inversion Hm; subst; left; reflexivity ].
  destruct (messages (message_handler (sess h)) !! code) as [c |] eqn:Hc.
  - unfold getitem in Hm. cbn [find_key] in Hm.
    destruct (MESSAGE_TYPE_MAP !! code) as [name |] eqn:Hn;
      [| inversion Hm; subst; left; reflexivity].
    destruct (construct c (PInt code :: rest)) as [obj | e] eqn:Hobj;
      [| inversion Hm; subst; left; reflexivity].
    destruct (process obj (PInt code :: rest) h) as [[[] | e] h1] eqn:Hp;
      inversion Hm; subst.
    + exists code, rest, c, obj, h1. repeat split; eauto.
    + right. eauto.
  - unfold getitem in Hm. cbn [find_key] in Hm.
    destruct (MESSAGE_TYPE_MAP !! code); inversion Hm; subst; left; reflexivity.
Qed.

End HandlerOutcomes.

Lemma handle_message_unnamed_code_witness :
  let h := heap (Sample.world None []) in
  handle_message (H := Sample.externals) [PInt 99; PInt 1] h
  = (Raise (Exn KeyError "" [PInt 99]), h).
Proof.
  intros h.
  apply (handle_message_unnamed_code (H := Sample.externals) h 99 [PInt 1]);
    vm_compute; reflexivity.
Defined.

Lemma handle_message_outcome_witness :
  let h := heap (Sample.world None []) in
  let m := [PInt 65; PInt 1; PInt 7] in
  exists obj h1,
    process (Externals := Sample.externals) obj m h = (Ok tt, h1)
    /\ snd (handle_message (H := Sample.externals) m h)
       = upd_sess (fun s => set_queue (_message_queue s ++ [m]) s) h1.
Proof.
  intros h m.
  destruct (handle_message_outcome (H := Sample.externals) m h
              (snd (handle_message (H := Sample.externals) m h)) (Ok tt)
              eq_refl)
    as (code & rest & c & obj & h1 & _ & _ & _ & _ & Hp & Hh).
  exists obj, h1. split; assumption.
Defined.

(** X4.  [Challenge( *message)] succeeds exactly on the three-element
    messages with code 4, and then the object's [message] is that message
    again. *)
Theorem challenge_round_trip (m : message) (obj : MessageObj) :
  Challenge_init m = Ok obj
  <-> (exists authmethod details,
         m = [PInt (WAMP_CODE Challenge); authmethod; details])
      /\ obj = {| obj_class := Challenge; obj_message := m |}.
Proof.
  unfold Challenge_init. split.
  - destruct m as [| c [| a [| d [| x m]]]]; try discriminate.
    destruct (eq_int c (WAMP_CODE Challenge)) eqn:Hc; [| discriminate].
    destruct c; try discriminate. cbn [eq_int] in Hc.
    apply Z.eqb_eq in Hc. subst z.
    intros Ho. inversion Ho; subst. split; [eauto | reflexivity].
  - intros [(a & d & ->) ->]. reflexivity.
Qed.

(** ** The caller proxies *)

Section CallerOutcomes.
Context `{Externals}.

(** X5.  A reply to [CallProxy] that is neither an ERROR nor a RESULT makes
    the call fail with [WampProtocolError], which carries the reply. *)
Theorem call_proxy_unexpected_reply (request_id : Z) (procedure : string)
  (args : list pyval) (kwargs : list (string * pyval)) (c c' : ClientState)
  (code : pyval) (fields : list pyval) :
  send_message_and_wait_for_response
    (Call_init request_id procedure args kwargs) c
  = (Ok (code :: fields), c') ->
  eq_int code Message.ERROR = false ->
  eq_int code Message.RESULT = false ->
  CallProxy_call request_id procedure args kwargs c
  = (Raise (Exn WampProtocolError "unexpected response: %s"
              [PList (code :: fields)]), c').
Proof.
  intros Hs He Hr. unfold CallProxy_call, bind, lift_res, ret, raise.
  rewrite Hs. cbn [item subscript nth_error]. rewrite He, Hr. reflexivity.
Qed.

(** X6.  A RESULT reply that carries no positional result, because the
    message stops before its args or because the args list is empty, makes
    a call through either proxy fail with [IndexError]. *)
Theorem result_without_value_raises (request_id : Z) (procedure : string)
  (args : list pyval) (kwargs : list (string * pyval)) (c c' : ClientState)
  (response : message) :
  send_message_and_wait_for_response
    (Call_init request_id procedure args kwargs) c = (Ok response, c') ->
  (exists fields,
      response = PInt Message.RESULT :: fields
      /\ (length fields < 3)%nat)
  \/ (exists request details fields,
        response
        = PInt Message.RESULT :: request :: details :: PList [] :: fields) ->
  raised_class (fst (CallProxy_call request_id procedure args kwargs c))
  = Some IndexError
  /\ raised_class (fst (RpcProxy_wrapper request_id procedure args kwargs c))
     = Some IndexError
  /\ snd (CallProxy_call request_id procedure args kwargs c) = c'.
Proof.
  intros Hs Hshape.
  unfold CallProxy_call, RpcProxy_wrapper, bind, lift_res, ret, raise.
  rewrite Hs.
  destruct Hshape as [(fields & -> & Hlen) | (request & details & fields & ->)].
  - destruct fields as [| a [| b [| d fields]]]; cbn [length] in Hlen;
      try lia; repeat split; reflexivity.
  - repeat split; reflexivity.
Qed.

(** X7.  A reply to [RpcProxy] that is not a RESULT never comes back as a
    value, and the error raised depends on the reply: [KeyError] when
    [MESSAGE_TYPE_MAP] does not name its code, [IndexError] when the code is
    named but the reply has fewer than six elements, and
    [WampProtocolError] otherwise. *)
Theorem rpc_proxy_failure_kinds (request_id : Z) (name : string)
  (args : list pyval) (kwargs : list (string * pyval)) (c c' : ClientState)
  (code : Z) (fields : list pyval) :
  send_message_and_wait_for_response
    (Call_init request_id name args kwargs) c
  = (Ok (PInt code :: fields), c') ->
  code <> Message.RESULT ->
  raised_class (fst (RpcProxy_wrapper request_id name args kwargs c))
  = Some (match MESSAGE_TYPE_MAP !! code with
          | None => KeyError
          | Some _ =>
              if (length fields <? 5)%nat then IndexError
              else WampProtocolError
          end).
Proof.
  intros Hs Hc. unfold RpcProxy_wrapper, bind, lift_res, ret, raise.
  rewrite Hs. cbn [item subscript nth_error eq_int].
  apply Z.eqb_neq in Hc. rewrite Hc. cbn [negb].
  unfold getitem. cbn [find_key].
  destruct (MESSAGE_TYPE_MAP !! code) as [type_name |]; [| reflexivity].
  destruct fields as [| f1 [| f2 [| f3 [| f4 [| f5 fields]]]]]; reflexivity.
Qed.

End CallerOutcomes.

Lemma call_proxy_unexpected_reply_witness :
  raised_class
    (fst (CallProxy_call (H := Sample.externals) 1 "get_date" [] []
            [[PInt 65; PInt 1; PInt 9]]))
  = Some WampProtocolError.
Proof.
  rewrite (call_proxy_unexpected_reply (H := Sample.externals) 1 "get_date"
             [] [] [[PInt 65; PInt 1; PInt 9]] [] (PInt 65) [PInt 1; PInt 9]
             eq_refl eq_refl eq_refl).
  reflexivity.
Defined.

Lemma result_without_value_raises_witness :
  raised_class
    (fst (CallProxy_call (H := Sample.externals) 1 "get_date" [] []
            [[PInt 50; PInt 1; PDict []]]))
  = Some IndexError.
Proof.
  destruct (result_without_value_raises (H := Sample.externals) 1 "get_date"
              [] [] [[PInt 50; PInt 1; PDict []]] []
              [PInt 50; PInt 1; PDict []] eq_refl) as (Hc & _ & _).
  - left. exists [PInt 1; PDict []]. split; [reflexivity | cbn; lia].
  - exact Hc.
Defined.

Lemma rpc_proxy_failure_kinds_witness :
  raised_class
    (fst (RpcProxy_wrapper (H := Sample.externals) 1 "get_date" [] []
            [[PInt 8; PInt 48; PInt 1; PDict []; PStr "wamp.error.x"]]))
  = Some IndexError.
Proof.
  rewrite (rpc_proxy_failure_kinds (H := Sample.externals) 1 "get_date" [] []
             [[PInt 8; PInt 48; PInt 1; PDict []; PStr "wamp.error.x"]] []
             8 [PInt 48; PInt 1; PDict []; PStr "wamp.error.x"] eq_refl).
  - vm_compute. reflexivity.
  - discriminate.
Defined.


(** ** Receiving and sending *)

Section ReceiveFacts.
Context `{Externals}.

Lemma known_message_shape (m : message) :
  known_message m = true ->
  exists code rest name,
    m = PInt code :: rest /\ MESSAGE_TYPE_MAP !! code = Some name.
Proof.
  destruct m as [| [| code | | |] rest]; try discriminate.
  cbn [known_message]. intros Hk.
  apply bool_decide_eq_true in Hk as [name Hn]. eauto.
Qed.

(** X8.  Messages leave the general queue in the order they are in it:
    two calls of [recv_message] on a queue that holds at least two messages
    return its first and its second message, without waiting. *)
Theorem recv_message_fifo (t1 t2 : nat) (w : World) (m1 m2 : message)
  (q : list message) :
  _message_queue (the_session w) = m1 :: m2 :: q ->
  known_message m1 = true ->
  known_message m2 = true ->
  recv_message t1 w = (Ok m1, upd_heap (upd_sess (set_queue (m2 :: q))) w)
  /\ recv_message t2 (upd_heap (upd_sess (set_queue (m2 :: q))) w)
     = (Ok m2, upd_heap (upd_sess (set_queue q)) w)
  /\ clock (upd_heap (upd_sess (set_queue q)) w) = clock w.
Proof.
  intros Hq H1 H2.
  apply known_message_shape in H1 as (c1 & r1 & n1 & -> & Hn1).
  apply known_message_shape in H2 as (c2 & r2 & n2 & -> & Hn2).
  split; [| split].
  - eapply recv_message_ready; eauto.
  - erewrite recv_message_ready; [| reflexivity | exact Hn2].
    destruct w as [[s tr cs] cl wi sf]. reflexivity.
  - reflexivity.
Qed.

Lemma wait_for_queue_quiet (remaining : nat)
  (wi : list (nat * list recv_result)) (cl : nat) (h : Heap ClientState) :
  _message_queue (sess h) = [] ->
  quiet_for remaining wi = true ->
  wait_for_queue remaining wi cl h
  = (Raise (Exn EventletTimeout "" []),
     (h, (cl + remaining)%nat, elapse remaining wi)).
Proof.
  intros Hq Hw. destruct wi as [| [d b] wi]; cbn [wait_for_queue];
    rewrite Hq; [reflexivity |].
  cbn [quiet_for] in Hw. apply Nat.leb_le in Hw.
  destruct (d <? remaining)%nat eqn:Hd; [apply Nat.ltb_lt in Hd; lia |].
  reflexivity.
Qed.

(** X9.  On an empty queue, when nothing becomes readable within the
    timeout, [recv_message] fails with [WampProtocolError] exactly
    [timeout] seconds after it was called, and changes nothing else. *)
Theorem recv_message_times_out (timeout : nat) (w : World) :
  _message_queue (the_session w) = [] ->
  quiet_for (1000 * timeout) (wire w) = true ->
  recv_message timeout w
  = (Raise (Exn WampProtocolError "no message returned" []),
     {| heap := heap w;
        clock := (clock w + 1000 * timeout)%nat;
        wire := elapse (1000 * timeout) (wire w);
        send_faults := send_faults w |}).
Proof.
  intros Hq Hw. unfold recv_message, _wait_for_message.
  unfold bind, try_except, raise.
  rewrite (wait_for_queue_quiet _ _ _ _ Hq Hw). reflexivity.
Qed.

(** X10.  On an empty queue, when the next burst of reads becomes readable
    before the timeout and makes the dispatcher queue a message,
    [recv_message] returns that message at the moment the burst arrives. *)
Theorem recv_message_delivers_on_arrival (timeout : nat) (w : World)
  (delay : nat) (burst : list recv_result)
  (wire' : list (nat * list recv_result)) (m : message) (q : list message) :
  _message_queue (the_session w) = [] ->
  wire w = (delay, burst) :: wire' ->
  (delay < 1000 * timeout)%nat ->
  _message_queue (sess (run_dispatcher burst (heap w))) = m :: q ->
  known_message m = true ->
  recv_message timeout w
  = (Ok m,
     {| heap := upd_sess (set_queue q) (run_dispatcher burst (heap w));
        clock := (clock w + delay)%nat;
        wire := wire';
        send_faults := send_faults w |}).
Proof.
  intros Hq Hw Hd Hm Hk.
  apply known_message_shape in Hk as (code & rest & name & -> & Hn).
  unfold recv_message, _wait_for_message.
  unfold bind, try_except, raise, lift_res, ret.
  rewrite Hw. cbn [wait_for_queue]. unfold the_session in Hq. rewrite Hq.
  apply Nat.ltb_lt in Hd. rewrite Hd.
  rewrite (wait_for_queue_ready _ _ _ _ _ _ Hm), Hm.
  unfold getitem. cbn [item subscript nth_error find_key].
  rewrite Hn. reflexivity.
Qed.

Lemma run_dispatcher_dead (burst : list recv_result) (h : Heap ClientState) :
  dispatcher_dead (sess h) = true -> run_dispatcher burst h = h.
Proof.
  unfold dispatcher_dead, run_dispatcher.
  destruct (_managed_thread (sess h)) as [[b | | e] |];
    try discriminate; reflexivity.
Qed.

Lemma wait_for_queue_dead (wi : list (nat * list recv_result)) :
  forall (remaining cl : nat) (h : Heap ClientState),
    dispatcher_dead (sess h) = true ->
    _message_queue (sess h) = [] ->
    exists wi',
      wait_for_queue remaining wi cl h
      = (Raise (Exn EventletTimeout "" []), (h, (cl + remaining)%nat, wi')).
Proof.
  induction wi as [| [d b] wi IH]; intros remaining cl h Hd Hq;
    cbn [wait_for_queue]; rewrite Hq.
  - eauto.
  - destruct (d <? remaining)%nat eqn:Hlt.
    + apply Nat.ltb_lt in Hlt. rewrite (run_dispatcher_dead _ _ Hd).
      destruct (IH (remaining - d)%nat (cl + d)%nat h Hd Hq) as [wi' Hw].
      rewrite Hw. exists wi'.
      replace (cl + d + (remaining - d))%nat with (cl + remaining)%nat by lia.
      reflexivity.
    + eauto.
Qed.

(** X11.  Once the dispatcher thread is dead, nothing is put on the queue
    any more: on an empty queue every [recv_message] fails with
    [WampProtocolError] after its full timeout, whatever the network
    delivers. *)
Theorem dead_dispatcher_means_timeout (timeout : nat) (w : World) :
  dispatcher_dead (the_session w) = true ->
  _message_queue (the_session w) = [] ->
  fst (recv_message timeout w)
  = Raise (Exn WampProtocolError "no message returned" [])
  /\ heap (snd (recv_message timeout w)) = heap w
  /\ clock (snd (recv_message timeout w)) = (clock w + 1000 * timeout)%nat.
Proof.
  intros Hd Hq. unfold recv_message, _wait_for_message.
  unfold bind, try_except, raise.
  destruct (wait_for_queue_dead (wire w) (1000 * timeout) (clock w) (heap w)
              Hd Hq) as [wi' Hw].
  rewrite Hw. repeat split; reflexivity.
Qed.

(** X12.  A frame whose message has a code the handler is not configured
    for ends the dispatcher: the [WampyError] escapes the loop, the thread
    dies, and the message is not queued. *)
Theorem unconfigured_message_kills_dispatcher (h : Heap ClientState)
  (received_bytes : string) (burst rest : list recv_result) (frame : Frame)
  (code : Z) (fields : list pyval) (name : string) :
  _managed_thread (sess h) = Some (Suspended received_bytes) ->
  read_websocket_frame_from received_bytes burst = (FrameRead frame, rest) ->
  frame_truthy frame = true ->
  payload frame = PInt code :: fields ->
  messages (message_handler (sess h)) !! code = None ->
  MESSAGE_TYPE_MAP !! code = Some name ->
  _managed_thread (sess (run_dispatcher burst h))
  = Some (Crashed (Exn WampyError "No message handler is configured for: {}"
                     [PStr name]))
  /\ _message_queue (sess (run_dispatcher burst h)) = _message_queue (sess h)
  /\ dispatcher_dead (sess (run_dispatcher burst h)) = true.
Proof.
  intros Ht Hr Hf Hp Hm Hn. unfold run_dispatcher. rewrite Ht.
  cbn [connection_handler_from]. rewrite Hr, Hf, Hp.
  rewrite (handle_message_refused h code fields name Hm Hn).
  repeat split; reflexivity.
Qed.

End ReceiveFacts.

Lemma recv_message_fifo_witness :
  let m1 := [PInt 50; PInt 1; PDict []; PList [PInt 7]] in
  let m2 := [PInt 6; PDict []; PStr "wamp.close.normal"] in
  let w := upd_heap (upd_sess (set_queue [m1; m2])) (Sample.world None []) in
  fst (recv_message (H := Sample.externals) 5 w) = Ok m1
  /\ fst (recv_message (H := Sample.externals) 5
            (snd (recv_message (H := Sample.externals) 5 w))) = Ok m2.
Proof.
  intros m1 m2 w.
  destruct (recv_message_fifo (H := Sample.externals) 5 5 w m1 m2 []
              eq_refl eq_refl eq_refl) as (H1 & H2 & _).
  rewrite H1. cbn [fst snd]. rewrite H2. split; reflexivity.
Defined.

Lemma recv_message_times_out_witness :
  clock (snd (recv_message (H := Sample.externals) 1
                (Sample.world None [(1500%nat, Sample.reads_of "2,77,x;")])))
  = 1000%nat.
Proof.
  rewrite (recv_message_times_out (H := Sample.externals) 1
             (Sample.world None [(1500%nat, Sample.reads_of "2,77,x;")])
             eq_refl eq_refl).
  reflexivity.
Defined.

Lemma recv_message_delivers_on_arrival_witness :
  let w := Sample.world None [(10%nat, Sample.reads_of "2,77,x;")] in
  fst (recv_message (H := Sample.externals) 5 w)
  = Ok [PInt 2; PInt 77; PStr "x"]
  /\ clock (snd (recv_message (H := Sample.externals) 5 w)) = 10%nat.
Proof.
  intros w.
  rewrite (recv_message_delivers_on_arrival (H := Sample.externals) 5 w 10
             (Sample.reads_of "2,77,x;") [] [PInt 2; PInt 77; PStr "x"] []);
    [split; reflexivity | reflexivity | reflexivity | cbn; lia
     | vm_compute; reflexivity | reflexivity].
Defined.

Lemma dead_dispatcher_means_timeout_witness :
  let w :=
    upd_heap (upd_sess (set_managed_thread (Some Stopped)))
      (Sample.world None [(10%nat, Sample.reads_of "2,77,x;")]) in
  fst (recv_message (H := Sample.externals) 5 w)
  = Raise (Exn WampProtocolError "no message returned" []).
Proof.
  intros w.
  destruct (dead_dispatcher_means_timeout (H := Sample.externals) 5 w
              eq_refl eq_refl) as (Hr & _ & _).
  exact Hr.
Defined.

Lemma unconfigured_message_kills_dispatcher_witness :
  let h := heap (Sample.world None []) in
  dispatcher_dead
    (sess (run_dispatcher (H := Sample.externals)
             (Sample.reads_of "3,x,wamp.error.no_such_realm;") h)) = true.
Proof.
  intros h.
  refine (proj2 (proj2
            (unconfigured_message_kills_dispatcher (H := Sample.externals) h ""
               (Sample.reads_of "3,x,wamp.error.no_such_realm;") []
               [PInt 3; PStr "x"; PStr "wamp.error.no_such_realm"]
               3 [PStr "x"; PStr "wamp.error.no_such_realm"] "ABORT"
               _ _ _ _ _ _)));
    try reflexivity; vm_compute; reflexivity.
Defined.

(** ** Frames and the dispatcher *)

Section FrameFacts.
Context `{Externals}.

(** X13.  [read_websocket_frame] keeps what it has received while the frame
    is incomplete: when the bytes arrive in pieces of which every proper
    prefix is an incomplete frame and the whole is a frame, it returns that
    frame and uses up exactly those reads. *)
Theorem read_frame_accumulates (chunks : list string) :
  forall (received_bytes last : string) (rest : list recv_result)
    (frame : Frame),
    Forall (fun chunk => chunk <> "") chunks ->
    last <> "" ->
    (forall k, (k < length chunks)%nat ->
       exists e,
         ServerFrame (foldl String.append received_bytes (take (S k) chunks))
         = Raise e
         /\ exn_cls e = IncompleteFrameError) ->
    ServerFrame (foldl String.append received_bytes chunks +:+ last)
    = Ok frame ->
    read_websocket_frame_from received_bytes
      (map RecvData chunks ++ RecvData last :: rest)
    = (FrameRead frame, rest).
Proof.
  induction chunks as [| c chunks IH];
    intros received_bytes last rest frame Hne Hlast Hinc Hok;
    cbn [map app read_websocket_frame_from].
  - apply String.eqb_neq in Hlast. rewrite Hlast.
    cbn [foldl] in Hok. rewrite Hok. reflexivity.
  - inversion Hne as [| ? ? Hc Hne']; subst.
    apply String.eqb_neq in Hc. rewrite Hc.
    destruct (Hinc 0%nat) as (e & He & Hcls); [cbn [length]; lia |].
    change (take 1 (c :: chunks)) with [c] in He.
    cbn [foldl] in He. rewrite He, Hcls.
    rewrite bool_decide_eq_true_2 by reflexivity.
    apply IH; auto.
    intros k Hk. destruct (Hinc (S k)) as (e' & He' & Hcls');
      [cbn [length]; lia |].
    change (take (S (S k)) (c :: chunks)) with (c :: take (S k) chunks) in He'.
    cbn [foldl] in He'. eauto.
Qed.

(** Reading a frame from reads that come in two parts. *)
Lemma read_websocket_frame_app (reads1 : list recv_result) :
  forall (received_bytes : string) (reads2 : list recv_result),
    read_websocket_frame_from received_bytes (reads1 ++ reads2)
    = match read_websocket_frame_from received_bytes reads1 with
      | (ReadBlocked received_bytes', _) =>
          read_websocket_frame_from received_bytes' reads2
      | (outcome, rest) => (outcome, rest ++ reads2)
      end.
Proof.
  induction reads1 as [| r reads1 IH]; intros received_bytes reads2;
    cbn [app read_websocket_frame_from]; [reflexivity |].
  destruct r as [bytes | e].
  - destruct (String.eqb bytes ""); [reflexivity |].
    destruct (ServerFrame (received_bytes +:+ bytes)) as [f | e];
      [reflexivity |].
    case_bool_decide; [apply IH | reflexivity].
  - repeat case_bool_decide; try reflexivity.
    destruct (is_Exception (exn_cls e)); reflexivity.
Qed.

Lemma connection_handler_app (n : nat) :
  forall (received_bytes : string) (reads1 reads2 : list recv_result)
    (h : Heap ClientState),
    (length reads1 < n)%nat ->
    connection_handler_from (n + length reads2) received_bytes
      (reads1 ++ reads2) h
    = match connection_handler_from n received_bytes reads1 h with
      | (Suspended received_bytes', h') =>
          connection_handler_from (S (length reads2)) received_bytes' reads2 h'
      | (t, h') => (t, h')
      end.
Proof.
  induction n as [| n IH]; intros received_bytes reads1 reads2 h Hn; [lia |].
  change (S n + length reads2)%nat with (S (n + length reads2)).
  cbn [connection_handler_from].
  rewrite read_websocket_frame_app.
  destruct (read_websocket_frame_from received_bytes reads1)
    as [[frame | e | b] rest] eqn:Hr.
  - apply read_websocket_frame_consumes in Hr.
    destruct (frame_truthy frame).
    + destruct (handle_message (payload frame) h) as [[[] | e] h'].
      * apply IH. lia.
      * destruct (leave_loop e) eqn:Hl; try reflexivity.
        unfold leave_loop in Hl. destruct (breaks_loop e); discriminate.
    + apply IH. lia.
  - destruct (leave_loop e) eqn:Hl; try reflexivity.
    unfold leave_loop in Hl. destruct (breaks_loop e); discriminate.
  - change (connection_handler_from (S (n + length reads2)) b reads2 h
            = connection_handler_from (S (length reads2)) b reads2 h).
    apply connection_handler_fuel; lia.
Qed.

(** X14.  Suspending the dispatcher in [recv] and resuming it when more can
    be read does not change what it does: its run on reads that come in two
    parts is its run on the first part followed, if that left it suspended
    in the middle of a frame, by its run on the second part from the bytes
    it had received. *)
Theorem dispatcher_resumes_where_it_stopped (h : Heap ClientState)
  (received_bytes : string) (reads1 reads2 : list recv_result) :
  connection_handler_from (S (length (reads1 ++ reads2))) received_bytes
    (reads1 ++ reads2) h
  = match connection_handler_from (S (length reads1)) received_bytes reads1 h
    with
    | (Suspended received_bytes', h') =>
        connection_handler_from (S (length reads2)) received_bytes' reads2 h'
    | (t, h') => (t, h')
    end.
Proof.
  rewrite length_app.
  change (S (length reads1 + length reads2))
    with (S (length reads1) + length reads2)%nat.
  apply connection_handler_app. lia.
Qed.

End FrameFacts.

Lemma read_frame_accumulates_witness :
  read_websocket_frame_from (H := Sample.externals) ""
    (map RecvData ["2,"; "77"] ++ RecvData ",x;" :: [RecvData "6"])
  = (FrameRead [PInt 2; PInt 77; PStr "x"], [RecvData "6"]).
Proof.
  apply (read_frame_accumulates (H := Sample.externals) ["2,"; "77"] ""
           ",x;" [RecvData "6"] [PInt 2; PInt 77; PStr "x"]).
  - repeat constructor; discriminate.
  - discriminate.
  - intros k Hk. destruct k as [| [| k]]; [| | cbn in Hk; lia];
      (eexists; split; [vm_compute; reflexivity | reflexivity]).
  - vm_compute. reflexivity.
Defined.

(** ** Sending *)

Section SendFacts.
Context `{Externals}.

(** X15.  Frames go out in the order of the calls: two calls of
    [send_message] on a connected session whose sends do not fail append the
    frame of the first message and then the frame of the second to what the
    socket has sent, and change nothing of the session. *)
Theorem send_message_in_order (m1 m2 : MessageObj) (sk : Socket) (w : World) :
  _connection (the_session w) = Some TheTransport ->
  socket (transport (heap w)) = Some sk ->
  send_faults w = [] ->
  exists w',
    (send_message m1 ;;; send_message m2) w = (Ok tt, w')
    /\ socket (transport (heap w'))
       = Some {| sent := sent sk ++ [ClientFrame (serialize m1);
                                     ClientFrame (serialize m2)];
                 closed := closed sk |}
    /\ the_session w' = the_session w
    /\ clock w' = clock w.
Proof.
  intros Hc Hs Hf. unfold bind.
  rewrite (send_message_connected m1 sk w Hc Hs) by (rewrite Hf; reflexivity).
  set (sk1 := {| sent := sent sk ++ [ClientFrame (serialize m1)];
                 closed := closed sk |}).
  rewrite (send_message_connected m2 sk1 (after_send m1 sk w));
    [| exact Hc | reflexivity | cbn; rewrite Hf; reflexivity].
  eexists. split; [reflexivity |].
  split; [| split; reflexivity].
  cbn. rewrite <- app_assoc. reflexivity.
Qed.

(** X16.  When [sendall] fails, [send_message] fails with the socket's own
    exception and nothing is recorded as sent; the call after it is not
    affected. *)
Theorem send_message_failure (m : MessageObj) (sk : Socket) (w : World)
  (e : exn) (faults : list (option exn)) :
  _connection (the_session w) = Some TheTransport ->
  socket (transport (heap w)) = Some sk ->
  send_faults w = Some e :: faults ->
  send_message m w
  = (Raise e,
     {| heap := heap w; clock := clock w; wire := wire w;
        send_faults := faults |}).
Proof.
  intros Hc Hs Hf. unfold send_message, bind, lift_res.
  destruct (message_type_known (obj_class m)) as [name Hn].
  unfold getitem. cbn [find_key]. rewrite Hn, Hc, Hf.
  unfold send_websocket_frame. rewrite Hs. cbn [head default tail].
  destruct w as [[s tr cs] cl wi sf]. cbn in *.
  unfold set_transport. cbn. reflexivity.
Qed.

End SendFacts.

Lemma send_message_in_order_witness :
  let hello := Hello_init "realm1" Sample.the_roles in
  let goodbye := Goodbye_init 6 in
  sent <$> socket (transport (heap (snd
    ((send_message (H := Sample.externals) hello ;;;
      send_message (H := Sample.externals) goodbye) (Sample.world None [])))))
  = Some [serialize (Externals := Sample.externals) hello;
          serialize (Externals := Sample.externals) goodbye].
Proof.
  intros hello goodbye.
  destruct (send_message_in_order (H := Sample.externals) hello goodbye
              {| sent := []; closed := false |} (Sample.world None [])
              eq_refl eq_refl eq_refl) as (w' & Hs & Hsk & _).
  rewrite Hs. cbn [snd]. rewrite Hsk. reflexivity.
Defined.

Lemma send_message_failure_witness :
  let broken := Exn SocketError "Broken pipe" [] in
  let w := {| heap := heap (Sample.world None []); clock := 0; wire := [];
              send_faults := [Some broken] |} in
  fst (send_message (H := Sample.externals) (Goodbye_init 6) w) = Raise broken.
Proof.
  intros broken w.
  rewrite (send_message_failure (H := Sample.externals) (Goodbye_init 6)
             {| sent := []; closed := false |} w broken []
             eq_refl eq_refl eq_refl).
  reflexivity.
Defined.

(** ** Joining and leaving the realm *)

Section HelloGoodbyeFacts.
Context `{Externals}.

(** X17.  When the router stays silent, [_say_hello] sends HELLO, waits the
    five seconds of [recv_message] and fails with [WampProtocolError];
    [session_id] is not set. *)
Theorem say_hello_silent_router (w : World) (sk : Socket) :
  _connection (the_session w) = Some TheTransport ->
  socket (transport (heap w)) = Some sk ->
  default None (head (send_faults w)) = None ->
  _message_queue (the_session w) = [] ->
  quiet_for (1000 * 5) (wire w) = true ->
  let hello := Hello_init (realm (the_session w)) (roles (the_session w)) in
  _say_hello w
  = (Raise (Exn WampProtocolError "no message returned" []),
     {| heap := heap (after_send hello sk w);
        clock := (clock w + 1000 * 5)%nat;
        wire := elapse (1000 * 5) (wire w);
        send_faults := tail (send_faults w) |})
  /\ session_id (the_session (snd (_say_hello w))) = session_id (the_session w)
  /\ sent <$> socket (transport (heap (snd (_say_hello w))))
     = Some (sent sk ++ [ClientFrame (serialize hello)]).
Proof.
  intros Hc Hs Hf Hq Hw hello.
  assert (Hhello : _say_hello w
    = (Raise (Exn WampProtocolError "no message returned" []),
       {| heap := heap (after_send hello sk w);
          clock := (clock w + 1000 * 5)%nat;
          wire := elapse (1000 * 5) (wire w);
          send_faults := tail (send_faults w) |})).
  { unfold _say_hello, bind, gets. fold hello.
    rewrite (send_message_connected hello sk w Hc Hs Hf).
    rewrite (recv_message_times_out 5 (after_send hello sk w) Hq Hw).
    reflexivity. }
  rewrite Hhello. split; [reflexivity | split; reflexivity].
Qed.

(** X18.  A reply to HELLO that does not have exactly three elements makes
    [_say_hello] fail with [ValueError], whatever its code; [session_id] is
    not set by [_say_hello]. *)
Theorem say_hello_wrong_arity (w w1 w2 : World) (response : message) :
  send_message (Hello_init (realm (the_session w)) (roles (the_session w))) w
  = (Ok tt, w1) ->
  recv_message 5 w1 = (Ok response, w2) ->
  length response <> 3%nat ->
  _say_hello w
  = (Raise (Exn ValueError "wrong number of values to unpack" []), w2).
Proof.
  intros Hs Hr Hl. unfold _say_hello, bind, gets, lift_res.
  rewrite Hs, Hr.
  destruct response as [| a [| b [| c [| d response]]]]; try reflexivity.
  cbn in Hl. congruence.
Qed.

(** X19.  [_say_hello] waits for at most two replies, five seconds each:
    the time it spends asleep in [_wait_for_message] is at most ten
    seconds.  The time the [onchallenge] callback and [sendall] take is not
    counted. *)
Theorem say_hello_returns_in_time (w : World) :
  (clock w <= clock (snd (_say_hello w)) <= clock w + 2 * (1000 * 5))%nat.
Proof.
  unfold _say_hello, bind, gets, lift_res, ret, raise, on_session, modify.
  set (hello := Hello_init (realm (the_session w)) (roles (the_session w))).
  destruct (send_message_frame hello w) as [_ Hc0].
  destruct (send_message hello w) as [[[] | e] w1]; cbn [snd] in Hc0;
    [| cbn [snd]; lia].
  destruct (recv_message_spec 5 w1) as [Hc1 _].
  destruct (recv_message 5 w1) as [[response | e] w2]; cbn [snd] in Hc1;
    [| cbn [snd]; lia].
  destruct (unpack3 response) as [[[code a] b] | e]; [| cbn [snd]; lia].
  destruct (eq_int code Message.CHALLENGE).
  - destruct (onchallenge (the_session w2)) as [callback |];
      [| cbn [snd]; lia].
    destruct (callback hello) as [signature | e]; [| cbn [snd]; lia].
    destruct (send_message_frame (Authenticate_init signature PNone) w2)
      as [_ Hc2].
    destruct (send_message (Authenticate_init signature PNone) w2)
      as [[[] | e] w3]; cbn [snd] in Hc2; [| cbn [snd]; lia].
    destruct (recv_message_spec 5 w3) as [Hc3 _].
    destruct (recv_message 5 w3) as [[response' | e] w4]; cbn [snd] in Hc3;
      [| cbn [snd]; lia].
    destruct (unpack3 response') as [[[code' a'] b'] | e]; [| cbn [snd]; lia].
    destruct (negb (in_ints code' [Message.WELCOME; Message.ABORT]));
      cbn [snd clock upd_heap]; lia.
  - destruct (negb (in_ints code [Message.WELCOME; Message.ABORT]));
      cbn [snd clock upd_heap]; lia.
Qed.

(** X20.  When the GOODBYE cannot be sent, [_say_goodbye] logs the failure
    and returns at once: it does not wait for a reply and takes nothing from
    the queue. *)
Theorem say_goodbye_skips_wait_on_send_failure (w w1 : World) (e : exn) :
  send_message (Goodbye_init 6) w = (Raise e, w1) ->
  is_Exception (exn_cls e) = true ->
  _say_goodbye w = (Ok tt, w1)
  /\ clock w1 = clock w
  /\ the_session w1 = the_session w.
Proof.
  intros Hs He. unfold _say_goodbye. rewrite Hs, He.
  destruct (send_message_frame (Goodbye_init 6) w) as [Hsess Hclock].
  rewrite Hs in Hsess, Hclock. cbn [snd] in Hsess, Hclock.
  split; [reflexivity | split; assumption].
Qed.

(** X21.  [_say_goodbye] takes the first message of the queue for the
    router's reply: when a message is already queued it is removed and
    dropped, whether it is a GOODBYE or not, and [_say_goodbye] returns
    without waiting. *)
Theorem say_goodbye_discards_queued_message (w : World) (sk : Socket)
  (m : message) (q : list message) :
  _connection (the_session w) = Some TheTransport ->
  socket (transport (heap w)) = Some sk ->
  default None (head (send_faults w)) = None ->
  _message_queue (the_session w) = m :: q ->
  known_message m = true ->
  _say_goodbye w
  = (Ok tt,
     upd_heap (upd_sess (set_queue q)) (after_send (Goodbye_init 6) sk w))
  /\ _message_queue (the_session (snd (_say_goodbye w))) = q
  /\ clock (snd (_say_goodbye w)) = clock w.
Proof.
  intros Hc Hs Hf Hq Hk.
  apply known_message_shape in Hk as (code & rest & name & -> & Hn).
  assert (Hg : _say_goodbye w
    = (Ok tt,
       upd_heap (upd_sess (set_queue q)) (after_send (Goodbye_init 6) sk w))).
  { unfold _say_goodbye.
    rewrite (send_message_connected (Goodbye_init 6) sk w Hc Hs Hf).
    unfold try_except, bind, lift_res, ret, raise.
    rewrite (recv_message_ready 2 (after_send (Goodbye_init 6) sk w) code rest
               q name Hq Hn).
    cbn [item subscript nth_error].
    destruct (negb (eq_int (PInt code) Message.GOODBYE)); reflexivity. }
  rewrite Hg. split; [reflexivity | split; reflexivity].
Qed.

(** X22.  On a session that has no dispatcher thread and no connection, as
    [session_builder] returns it, [end()] fails with [AttributeError] and
    changes nothing: the maps and [session_id] are not reset. *)
Theorem end_before_begin_changes_nothing (w : World) :
  _managed_thread (the_session w) = None ->
  _connection (the_session w) = None ->
  end_ w
  = (Raise (Exn AttributeError "'NoneType' object has no attribute 'kill'" []),
     w).
Proof.
  intros Ht Hc. unfold end_, _disconnet, bind, gets, raise.
  unfold _say_goodbye.
  destruct (send_message_disconnected (Goodbye_init 6) w Hc) as (e & Hs & He).
  rewrite Hs, He. cbn [is_Exception]. rewrite Ht. reflexivity.
Qed.

(** X23.  [session_builder] accepts the transport "ws" only; the session it
    returns has the default handler, no connection and no dispatcher, its
    transport is not connected and is the TLS one exactly when the router
    can use TLS, and until [begin()] nothing can be sent on it and [end()]
    fails. *)
Theorem session_builder_gives_unbegun_session (has_TLSv1_2 : bool)
  (uuid_bytes : string) (roles : pyval) (router : Router) (realm : string)
  (transport : string) (onchallenge : option (MessageObj -> res pyval))
  (client : ClientState) (wire : list (nat * list recv_result))
  (faults : list (option exn)) (message : MessageObj) :
  match session_builder has_TLSv1_2 uuid_bytes roles router realm transport
          onchallenge with
  | Raise e => transport <> "ws" /\ exn_cls e = WampError
  | Ok built =>
      let w := built_world built client wire faults in
      transport = "ws"
      /\ (can_use_tls router = true <-> exists tls, snd built = TLS tls)
      /\ websocket_location (as_websocket (snd built)) = "ws"
      /\ socket (as_websocket (snd built)) = None
      /\ raised_class (fst (send_message message w)) = Some AttributeError
      /\ snd (send_message message w) = w
      /\ raised_class (fst (end_ w)) = Some AttributeError
      /\ snd (end_ w) = w
  end.
Proof.
  unfold session_builder.
  destruct (String.eqb transport "ws") eqn:Ht.
  - apply String.eqb_eq in Ht. cbn zeta.
    set (built := (Session_init realm roles onchallenge, _)).
    set (w := built_world built client wire faults).
    destruct (send_message_disconnected message w eq_refl) as (e & Hs & He).
    destruct (send_message_disconnected (Goodbye_init 6) w eq_refl)
      as (e' & Hs' & He').
    assert (Hend : end_ w
      = (Raise (Exn AttributeError
                  "'NoneType' object has no attribute 'kill'" []), w)).
    { unfold end_, _disconnet, bind, gets, raise, _say_goodbye.
      rewrite Hs', He'. reflexivity. }
    rewrite Hend, Hs.
    cbn [fst snd raised_class exn_cls]. rewrite He.
    split; [exact Ht |].
    split.
    { subst built. cbn [snd]. destruct (can_use_tls router); split;
        try discriminate; eauto. intros [tls Htls]. discriminate. }
    split; [subst built; destruct (can_use_tls router); reflexivity |].
    split; [subst built; destruct (can_use_tls router); reflexivity |].
    repeat split; reflexivity.
  - apply String.eqb_neq in Ht. split; [exact Ht | reflexivity].
Qed.

End HelloGoodbyeFacts.

Lemma say_hello_silent_router_witness :
  raised_class (fst (_say_hello (H := Sample.externals) (Sample.world None [])))
  = Some WampProtocolError
  /\ session_id (the_session
                   (snd (_say_hello (H := Sample.externals)
                           (Sample.world None [])))) = PNone.
Proof.
  destruct (say_hello_silent_router (H := Sample.externals)
              (Sample.world None []) {| sent := []; closed := false |}
              eq_refl eq_refl eq_refl eq_refl eq_refl) as (Hh & Hid & _).
  rewrite Hh. split; [reflexivity | rewrite Hh in Hid; exact Hid].
Defined.

Lemma say_hello_wrong_arity_witness :
  let w :=
    upd_heap (upd_sess (set_queue [[PInt 2; PInt 77]])) (Sample.world None [])
  in
  raised_class (fst (_say_hello (H := Sample.externals) w)) = Some ValueError.
Proof.
  intros w.
  set (hello := Hello_init (realm (the_session w)) (roles (the_session w))).
  rewrite (say_hello_wrong_arity (H := Sample.externals) w
             (snd (send_message (H := Sample.externals) hello w))
             (snd (recv_message (H := Sample.externals) 5
                     (snd (send_message (H := Sample.externals) hello w))))
             [PInt 2; PInt 77]);
    [reflexivity | reflexivity | reflexivity | cbn; lia].
Defined.

Lemma say_goodbye_skips_wait_on_send_failure_witness :
  let broken := Exn SocketError "Broken pipe" [] in
  let w := {| heap := heap (Sample.world None []); clock := 0;
              wire := [(10%nat, Sample.reads_of "6,x,y;")];
              send_faults := [Some broken] |} in
  fst (_say_goodbye (H := Sample.externals) w) = Ok tt
  /\ clock (snd (_say_goodbye (H := Sample.externals) w)) = 0%nat.
Proof.
  intros broken w.
  destruct (say_goodbye_skips_wait_on_send_failure (H := Sample.externals) w
              (snd (send_message (H := Sample.externals) (Goodbye_init 6) w))
              broken eq_refl eq_refl) as (Hg & Hc & _).
  rewrite Hg. split; [reflexivity | exact Hc].
Defined.

Lemma say_goodbye_discards_queued_message_witness :
  let result := [PInt 50; PInt 1; PDict []; PList [PInt 7]] in
  let w := upd_heap (upd_sess (set_queue [result])) (Sample.world None []) in
  fst (_say_goodbye (H := Sample.externals) w) = Ok tt
  /\ _message_queue (the_session (snd (_say_goodbye (H := Sample.externals) w)))
     = [].
Proof.
  intros result w.
  destruct (say_goodbye_discards_queued_message (H := Sample.externals) w
              {| sent := []; closed := false |} result []
              eq_refl eq_refl eq_refl eq_refl eq_refl) as (Hg & Hq & _).
  rewrite Hg in *. split; [reflexivity | exact Hq].
Defined.

Lemma end_before_begin_changes_nothing_witness :
  end_ (H := Sample.externals) Sample.fresh_world
  = (Raise (Exn AttributeError "'NoneType' object has no attribute 'kill'" []),
     Sample.fresh_world).
Proof.
  apply (end_before_begin_changes_nothing (H := Sample.externals)
           Sample.fresh_world eq_refl eq_refl).
Defined.

(** ** Beginning a session *)

Section BeginFacts.
Context `{Externals}.

(** X24.  When connecting the transport fails, be it that the socket cannot
    be opened or that the handshake response is malformed, [begin()] fails
    with [ConnectionError]; no dispatcher is spawned, [_connection] stays
    unset and no HELLO is sent. *)
Theorem begin_fails_with_connection_error (tcp : res unit)
  (send_fault recv_fault : option exn) (input : string)
  (w : World) (e : exn) (ws' : WebSocket) (rest : string) :
  connect tcp send_fault recv_fault (transport (heap w)) input
  = (Returns (Raise e), ws', rest) ->
  is_Exception (exn_cls e) = true ->
  begin tcp send_fault recv_fault input w
  = (Returns (Raise (Exn ConnectionError "{}" [PStr (exn_msg e)])),
     upd_heap (set_transport ws') w)
  /\ the_session (snd (begin tcp send_fault recv_fault input w)) = the_session w.
Proof.
  intros Hc He.
  assert (Hb : begin tcp send_fault recv_fault input w
    = (Returns (Raise (Exn ConnectionError "{}" [PStr (exn_msg e)])),
       upd_heap (set_transport ws') w)).
  { unfold begin, Session_connect. rewrite Hc, He. reflexivity. }
  rewrite Hb. split; reflexivity.
Qed.

(** X25.  When the socket opens, the handshake response is read to its blank
    line, and the first burst the router sends arrives within five seconds
    and makes the dispatcher queue a WELCOME, [begin()] succeeds at the
    moment the burst arrives: [session_id] is the id of the WELCOME, the
    dispatcher is spawned and [_connection] is set. *)
Theorem begin_establishes_session (recv_fault : option exn)
  (input : string) (w : World) (st : option Z) (hd : gmap string pyval) (delay : nat)
  (burst : list recv_result) (wire' : list (nat * list recv_result))
  (id details : pyval) (q : list message) :
  _read_handshake_response recv_fault input = (Returns (Ok (st, hd)), "") ->
  send_faults w = [] ->
  _message_queue (the_session w) = [] ->
  wire w = (delay, burst) :: wire' ->
  (delay < 1000 * 5)%nat ->
  let connected := snd (Session_connect (Ok tt) None recv_fault input w) in
  let hello := Hello_init (realm (the_session w)) (roles (the_session w)) in
  let hello_sent := snd (send_message hello connected) in
  _message_queue (sess (run_dispatcher burst (heap hello_sent)))
  = [PInt Message.WELCOME; id; details] :: q ->
  fst (begin (Ok tt) None recv_fault input w) = Returns (Ok tt)
  /\ session_id (the_session (snd (begin (Ok tt) None recv_fault input w))) = id
  /\ clock (snd (begin (Ok tt) None recv_fault input w)) = (clock w + delay)%nat
  /\ _connection (the_session connected) = Some TheTransport
  /\ _managed_thread (the_session connected) = Some (Suspended "")
  /\ status (transport (heap connected)) = st.
Proof.
  intros Hread Hf Hq Hw Hd connected hello hello_sent Hqueue.
  assert (Hconn : Session_connect (Ok tt) None recv_fault input w
                  = (Returns (Ok tt), connected)).
  { subst connected. unfold Session_connect, connect. cbn [_connect].
    unfold _upgrade. cbn [socket_send socket]. rewrite Hread. reflexivity. }
  assert (Hsend : send_message hello connected = (Ok tt, hello_sent)).
  { subst hello_sent.
    rewrite (send_message_connected hello
               {| sent := [handshake_request
                             (set_socket (Some {| sent := []; closed := false |})
                                (transport (heap w)))];
                  closed := false |} connected).
    - reflexivity.
    - subst connected. unfold Session_connect, connect. cbn [_connect].
      unfold _upgrade. cbn [socket_send socket]. rewrite Hread. reflexivity.
    - subst connected. unfold Session_connect, connect. cbn [_connect].
      unfold _upgrade. cbn [socket_send socket]. rewrite Hread. reflexivity.
    - subst connected. unfold Session_connect, connect. cbn [_connect].
      unfold _upgrade. cbn [socket_send socket]. rewrite Hread.
      cbn. rewrite Hf. reflexivity. }
  assert (Hsess : the_session connected
                  = set_connection (Some TheTransport)
                      (set_managed_thread (Some (Suspended ""))
                         (the_session w))).
  { subst connected. unfold Session_connect, connect. cbn [_connect].
    unfold _upgrade. cbn [socket_send socket]. rewrite Hread. reflexivity. }
  assert (Hrecv : recv_message 5 hello_sent
    = (Ok [PInt Message.WELCOME; id; details],
       {| heap := upd_sess (set_queue q) (run_dispatcher burst (heap hello_sent));
          clock := (clock hello_sent + delay)%nat;
          wire := wire';
          send_faults := send_faults hello_sent |})).
  { apply recv_message_delivers_on_arrival; auto.
    - destruct (send_message_frame hello connected) as [Hs _].
      rewrite Hsend in Hs. cbn [snd] in Hs. rewrite Hs, Hsess. exact Hq.
    - subst hello_sent.
      rewrite (send_message_connected hello
               {| sent := [handshake_request
                             (set_socket (Some {| sent := []; closed := false |})
                                (transport (heap w)))];
                  closed := false |} connected) in *;
        try (subst connected; unfold Session_connect, connect;
             cbn [_connect]; unfold _upgrade; cbn [socket_send socket];
             rewrite Hread; cbn; try rewrite Hf; reflexivity).
      subst connected. unfold Session_connect, connect. cbn [_connect].
      unfold _upgrade. cbn [socket_send socket]. rewrite Hread.
      cbn. exact Hw. }
  assert (Hclock : clock hello_sent = clock w).
  { destruct (send_message_frame hello connected) as [_ Hc].
    rewrite Hsend in Hc. cbn [snd] in Hc. rewrite Hc.
    subst connected. unfold Session_connect, connect. cbn [_connect].
    unfold _upgrade. cbn [socket_send socket]. rewrite Hread. reflexivity. }
  assert (Hbegin : begin (Ok tt) None recv_fault input w
    = (Returns (Ok tt),
       upd_heap (upd_sess (set_session_id id))
         {| heap := upd_sess (set_queue q)
                      (run_dispatcher burst (heap hello_sent));
            clock := (clock hello_sent + delay)%nat;
            wire := wire';
            send_faults := send_faults hello_sent |})).
  { unfold begin. rewrite Hconn.
    unfold _say_hello, bind, gets, lift_res, ret, on_session, modify.
    replace (Hello_init (realm (the_session connected))
               (roles (the_session connected))) with hello
      by (rewrite Hsess; reflexivity).
    rewrite Hsend, Hrecv. reflexivity. }
  rewrite Hbegin. cbn [fst snd].
  split; [reflexivity |]. split; [reflexivity |].
  split; [cbn; rewrite Hclock; reflexivity |].
  rewrite Hsess. split; [reflexivity |]. split; [reflexivity |].
  subst connected. unfold Session_connect, connect. cbn [_connect].
  unfold _upgrade. cbn [socket_send socket]. rewrite Hread. reflexivity.
Qed.

End BeginFacts.

Lemma begin_fails_with_connection_error_witness :
  let refused := Exn SocketError "Connection refused" [] in
  begin (H := Sample.externals) (Raise refused) None None ""
    Sample.fresh_world
  = (Returns (Raise (Exn ConnectionError "{}" [PStr "Connection refused"])),
     Sample.fresh_world).
Proof.
  intros refused.
  destruct (begin_fails_with_connection_error (H := Sample.externals)
              (Raise refused) None None "" Sample.fresh_world refused
              (transport (heap Sample.fresh_world)) "" eq_refl eq_refl)
    as [Hb _].
  rewrite Hb. reflexivity.
Defined.

Lemma begin_establishes_session_witness :
  let w := {| heap := heap Sample.fresh_world; clock := 0;
              wire := [(10%nat, Sample.reads_of "2,77,x;")];
              send_faults := [] |} in
  fst (begin (H := Sample.externals) (Ok tt) None None Sample.switching w)
  = Returns (Ok tt)
  /\ session_id (the_session
                   (snd (begin (H := Sample.externals) (Ok tt) None None
                           Sample.switching w))) = PInt 77.
Proof.
  intros w.
  destruct (begin_establishes_session (H := Sample.externals) None
              Sample.switching w (Some 101)
              (list_to_map
                 [("status_info",
                   PList [PStr "HTTP/1.1"; PStr "101";
                          PStr "Switching Protocols"]);
                  ("status", PInt 101);
                  ("upgrade", PStr "websocket")])
              10%nat (Sample.reads_of "2,77,x;") [] (PInt 77) (PStr "x") [])
    as (Hr & Hid & _).
  - vm_compute. reflexivity.
  - reflexivity.
  - reflexivity.
  - reflexivity.
  - vm_compute. lia.
  - vm_compute. reflexivity.
  - split; assumption.
Defined.

(** ** The transport objects *)

Lemma lstrip_by_stops (p : ascii -> bool) (l : list ascii) :
  match Str.lstrip_by p l with
  | [] => True
  | c :: _ => p c = false
  end.
Proof.
  induction l as [| c l IH]; cbn [Str.lstrip_by]; [exact I |].
  destruct (p c) eqn:Hc; [exact IH | exact Hc].
Qed.

Lemma lstrip_by_removed (p : ascii -> bool) (l : list ascii) :
  exists removed,
    l = removed ++ Str.lstrip_by p l /\ Forall (fun c => p c = true) removed.
Proof.
  induction l as [| c l IH]; cbn [Str.lstrip_by].
  - exists []. split; [reflexivity | constructor].
  - destruct (p c) eqn:Hc.
    + destruct IH as (removed & Hl & Hr). exists (c :: removed).
      split; [cbn [app]; f_equal; exact Hl | constructor; assumption].
    + exists []. split; [reflexivity | constructor].
Qed.

(** X26.  The location of a [WebSocket] is the location it was built with
    less its leading slashes, and only those: it never starts with a slash,
    so the request line of the handshake has exactly one slash before it. *)
Theorem websocket_location_has_no_leading_slash (host : string) (port : Z)
  (location : string) (uuid_bytes : string) :
  let ws := WebSocket_init host port location uuid_bytes in
  (forall rest, websocket_location ws <> String "/" rest)
  /\ (exists n : nat,
        location
        = Str.of_chars (repeat "/"%char n) +:+ websocket_location ws)
  /\ (websocket_location ws = location
      <-> forall rest, location <> String "/" rest).
Proof.
  intros ws. unfold ws, WebSocket_init. cbn [websocket_location].
  unfold Str.lstrip_char.
  assert (Hno : forall rest,
             Str.of_chars (Str.lstrip_by (Ascii.eqb "/") (Str.chars location))
             <> String "/" rest).
  { intros rest Heq.
    pose proof (lstrip_by_stops (Ascii.eqb "/") (Str.chars location)) as Hs.
    apply (f_equal Str.chars) in Heq. rewrite chars_of_chars in Heq.
    rewrite Heq in Hs. cbn in Hs. discriminate. }
  split; [exact Hno |]. split.
  - destruct (lstrip_by_removed (Ascii.eqb "/") (Str.chars location))
      as (removed & Hl & Hr).
    exists (length removed).
    assert (Hrep : removed = repeat "/"%char (length removed)).
    { clear Hl. induction Hr as [| c l Hc Hr IH]; [reflexivity |].
      cbn [length repeat]. apply Ascii.eqb_eq in Hc. subst c.
      f_equal. exact IH. }
    rewrite <- Hrep.
    rewrite <- (of_chars_chars location) at 1.
    rewrite Hl at 1.
    rewrite <- (of_chars_chars (Str.of_chars removed +:+ _)).
    rewrite chars_append, !chars_of_chars. reflexivity.
  - split.
    + intros Heq rest. rewrite <- Heq. apply Hno.
    + intros Hloc. destruct location as [| c location]; [reflexivity |].
      change (Str.chars (String c location))
        with (c :: Str.chars location).
      cbn [Str.lstrip_by].
      destruct (Ascii.eqb "/" c) eqn:Hc.
      * apply Ascii.eqb_eq in Hc. subst c. destruct (Hloc location eq_refl).
      * change (c :: Str.chars location)
          with (Str.chars (String c location)).
        apply of_chars_chars.
Qed.

(** X27.  A [TLSWebSocket] always has a protocol version: a version given
    to the constructor is kept when it is true, and replaced by TLS 1.2, or
    by TLS 1.0 where the [ssl] module has no 1.2, when it is false ([None],
    zero or empty).  Its other attributes are those of the plain [WebSocket] built
    from the same arguments, so both send the same handshake request. *)
Theorem tls_websocket_has_version (has_TLSv1_2 : bool) (host : string)
  (port : Z) (location certificate : string) (version : pyval)
  (uuid_bytes : string) :
  let tls := TLSWebSocket_init has_TLSv1_2 host port location certificate
               version uuid_bytes in
  truthy (ssl_version tls) = true
  /\ ssl_version tls
     = (if truthy version then version
        else PInt (if has_TLSv1_2 then PROTOCOL_TLSv1_2 else PROTOCOL_TLSv1))
  /\ as_websocket (TLS tls) = WebSocket_init host port location uuid_bytes
  /\ handshake_request (as_websocket (TLS tls))
     = handshake_request (WebSocket_init host port location uuid_bytes).
Proof.
  intros tls. unfold tls, TLSWebSocket_init, py_or. cbn [ssl_version].
  destruct (truthy version) eqn:Hv.
  - repeat split. exact Hv.
  - destruct has_TLSv1_2; repeat split.
Qed.

(** ** Reading the handshake response *)

Lemma newline_only_last (consumed : string) :
  (forall p s, consumed = p +:+ NL +:+ s -> s = "") ->
  forall b, Ascii.eqb b LF = false ->
  forall p s, String b consumed = p +:+ NL +:+ s -> s = "".
Proof.
  intros Hc b Hb p s Heq. destruct p as [| c p].
  - change ("" +:+ NL +:+ s) with (String LF s) in Heq.
    inversion Heq; subst. rewrite Ascii.eqb_refl in Hb. discriminate.
  - change (String c p +:+ NL +:+ s) with (String c (p +:+ NL +:+ s)) in Heq.
    inversion Heq; subst. eapply Hc. reflexivity.
Qed.

Lemma recv_line_newline_last (recv_fault : option exn) (input : string) :
  forall (received line rest : string),
    _recv_handshake_response_by_line recv_fault received input
    = (Ok line, rest) ->
    exists consumed,
      line = received +:+ consumed
      /\ forall p s, consumed = p +:+ NL +:+ s -> s = "".
Proof.
  induction input as [| b input IH]; intros received line rest Hr;
    cbn [_recv_handshake_response_by_line] in Hr.
  - destruct recv_fault; [discriminate |].
    inversion Hr; subst. exists "". rewrite append_empty_r.
    split; [reflexivity |]. intros [| c p] s Heq; discriminate.
  - destruct (Ascii.eqb b LF) eqn:Hb.
    + apply Ascii.eqb_eq in Hb. subst b. inversion Hr; subst.
      exists NL. split; [reflexivity |].
      intros [| c p] s Heq.
      * change ("" +:+ NL +:+ s) with (String LF s) in Heq.
        inversion Heq. reflexivity.
      * change (String c p +:+ NL +:+ s)
          with (String c (p +:+ NL +:+ s)) in Heq.
        inversion Heq as [[Hc Hp]]. destruct p; discriminate.
    + apply IH in Hr as (consumed & Hl & Hlast).
      exists (String b consumed). rewrite append_assoc in Hl.
      split; [exact Hl |]. apply newline_only_last; assumption.
Qed.

(** X28.  [_recv_handshake_response_by_line] reads one line and no more: what
    it returns is a prefix of what the peer sends, a newline occurs in it
    only as its last byte, and it ends with a newline unless the peer has
    sent nothing after it. *)
Theorem handshake_line_is_one_line (recv_fault : option exn)
  (input line rest : string) :
  _recv_handshake_response_by_line recv_fault "" input = (Ok line, rest) ->
  input = line +:+ rest
  /\ (forall p s, line = p +:+ NL +:+ s -> s = "")
  /\ (rest <> "" -> exists p, line = p +:+ NL).
Proof.
  intros Hr.
  pose proof (recv_line_spec _ _ _ _ _ Hr) as (consumed & Hl & Hi & He & _).
  pose proof (recv_line_newline_last _ _ _ _ _ Hr)
    as (consumed' & Hl' & Hlast).
  change ("" +:+ consumed) with consumed in Hl.
  change ("" +:+ consumed') with consumed' in Hl'.
  subst consumed consumed'.
  split; [exact Hi |]. split; [exact Hlast |].
  intros Hne. destruct He as [He | He]; [contradiction | exact He].
Qed.

Lemma read_handshake_loop_hangs_at_end (recv_fault : option exn)
  (fuel : nat) :
  forall (st : option Z) (hd : gmap string pyval) (input rest : string),
    (String.length input < fuel)%nat ->
    read_handshake_loop fuel recv_fault st hd input = (Hangs, rest) ->
    rest = "".
Proof.
  induction fuel as [| fuel IH]; intros st hd input rest Hlen Hloop; [lia |].
  cbn [read_handshake_loop] in Hloop.
  destruct (_recv_handshake_response_by_line recv_fault "" input)
    as [[line | e] rest0] eqn:Hr; [| discriminate].
  pose proof (recv_line_spec _ _ _ _ _ Hr)
    as (consumed & Hl & Hi & He & Hle & Hlt).
  assert (Hrec : forall st0 hd0,
             input <> "" ->
             read_handshake_loop fuel recv_fault st0 hd0 rest0
             = (Hangs, rest) ->
             rest = "").
  { intros st0 hd0 Hne Hrec. specialize (Hlt Hne).
    eapply IH; [| exact Hrec]. lia. }
  assert (Hne : String.eqb (Str.strip line) "" = false -> input <> "").
  { intros Hs ->. destruct consumed; [| discriminate].
    cbn in Hl. subst line. discriminate. }
  destruct (String.eqb line CRLF || String.eqb line NL); [discriminate |].
  destruct (String.eqb (Str.strip line) "") eqn:Hs.
  - destruct input as [| b input].
    + cbn in Hr. destruct recv_fault; [discriminate |].
      inversion Hr; subst. inversion Hloop. reflexivity.
    + eapply Hrec; [discriminate | exact Hloop].
  - specialize (Hne eq_refl).
    destruct (status_unset st).
    + destruct (nth_error _ 1); [| discriminate].
      destruct (Str.int s); [| discriminate].
      eapply Hrec; [exact Hne | exact Hloop].
    + destruct (Str.split ":" 1 (Str.strip line)) as [| k [| v [| ? ?]]];
        try discriminate.
      eapply Hrec; [exact Hne | exact Hloop].
Qed.

(** X29.  When the peer closes the connection before it has sent the blank
    line that ends the handshake response, and no line read until then was
    malformed, [_read_handshake_response] never returns: every further read
    gives an empty line, which the loop skips.  This happens only once all
    that the peer sent has been read, and more iterations do not end it. *)
Theorem handshake_hangs_when_peer_closes_early (recv_fault : option exn)
  (input rest : string) :
  _read_handshake_response recv_fault input = (Hangs, rest) ->
  rest = ""
  /\ (forall fuel : nat,
        (String.length input < fuel)%nat ->
        read_handshake_loop fuel recv_fault None ∅ input = (Hangs, ""))
  /\ forall ws : WebSocket,
      fst (fst (connect (Ok tt) None recv_fault ws input)) = Hangs.
Proof.
  intros Hread. unfold _read_handshake_response in Hread.
  assert (Hrest : rest = "").
  { eapply read_handshake_loop_hangs_at_end; [| exact Hread]. lia. }
  subst rest. split; [reflexivity |]. split.
  - intros fuel Hfuel. rewrite <- Hread.
    apply read_handshake_loop_fuel; lia.
  - intros ws. unfold connect. cbn [_connect]. unfold _upgrade.
    cbn [socket_send socket]. unfold _read_handshake_response.
    rewrite Hread. reflexivity.
Qed.

Lemma handshake_line_is_one_line_witness :
  _recv_handshake_response_by_line None "" Sample.switching
  = (Ok ("HTTP/1.1 101 Switching Protocols" +:+ CRLF),
     "Upgrade: websocket" +:+ CRLF +:+ CRLF)
  /\ exists p, "HTTP/1.1 101 Switching Protocols" +:+ CRLF = p +:+ NL.
Proof.
  split; [vm_compute; reflexivity |].
  refine (proj2 (proj2 (handshake_line_is_one_line None Sample.switching
                          ("HTTP/1.1 101 Switching Protocols" +:+ CRLF)
                          ("Upgrade: websocket" +:+ CRLF +:+ CRLF) _)) _).
  - vm_compute. reflexivity.
  - discriminate.
Defined.

Lemma handshake_hangs_when_peer_closes_early_witness :
  let cut := "HTTP/1.1 101 Switching Protocols" +:+ CRLF in
  let ws := WebSocket_init "localhost" 8080 "ws" Sample.a_uuid in
  fst (fst (connect (Ok tt) None None ws cut)) = Hangs.
Proof.
  intros cut ws.
  refine (proj2 (proj2 (handshake_hangs_when_peer_closes_early None cut "" _))
            ws).
  vm_compute. reflexivity.
Defined.
